(** * The MCP request dispatcher of embedding-mcp ([mcp-server/app/mcp.py])

    A shallow embedding of the JSON-RPC method router: the JSON values it
    receives and builds, the module state it runs in (the tool registry,
    the log, the wall clock), its handlers as computations in a state and
    exception monad, and the properties of the dispatch contract. *)

From Stdlib Require Import ZArith QArith Qround Lia Bool.
From Stdlib Require Import Floats.SpecFloat.
From stdpp Require Import base strings pretty list gmap.

#[local] Set Warnings "-register-all".
Local Open Scope string_scope.
Local Open Scope Z_scope.

(** ** Python values *)

(** A Python [float] is an IEEE binary64 number. *)
Definition prec : Z := 53.
Definition emax : Z := 1024.

(** The values that travel through the dispatcher: what the JSON body of
    a request parses to, and what the handlers build.  A [dict] is its
    list of items in insertion order (keys are pairwise distinct). *)
Inductive json : Type :=
| JNone
| JBool (b : bool)
| JInt (n : Z)
| JFloat (f : spec_float)
| JStr (s : string)
| JList (l : list json)
| JDict (d : list (string * json)).

(** [d.get(key)]: [None] stands for a missing key. *)
Fixpoint dict_get (key : string) (d : list (string * json)) : option json :=
  match d with
  | [] => None
  | (k, v) :: d' => if String.eqb k key then Some v else dict_get key d'
  end.

(** [d.get(key, default)] *)
Definition dict_get_default (key : string) (default : json)
    (d : list (string * json)) : json :=
  match dict_get key d with
  | Some v => v
  | None => default
  end.

(** The member [key] of a value that is an object. *)
Definition json_field (key : string) (v : json) : option json :=
  match v with
  | JDict d => dict_get key d
  | _ => None
  end.

(** Truth value testing, as [not x] and [if x] apply it. *)
Definition truthy (v : json) : bool :=
  match v with
  | JNone => false
  | JBool b => b
  | JInt n => negb (n =? 0)
  | JFloat (S754_zero _) => false
  | JFloat _ => true
  | JStr s => negb (String.eqb s "")
  | JList l => match l with [] => false | _ => true end
  | JDict d => match d with [] => false | _ => true end
  end.

(** [isinstance(v, dict)] *)
Definition is_dict (v : json) : bool :=
  match v with
  | JDict _ => true
  | _ => false
  end.

(** [type(v).__name__] *)
Definition type_name (v : json) : string :=
  match v with
  | JNone => "NoneType"
  | JBool _ => "bool"
  | JInt _ => "int"
  | JFloat _ => "float"
  | JStr _ => "str"
  | JList _ => "list"
  | JDict _ => "dict"
  end.

(** [sub in s] on strings. *)
Fixpoint str_contains (sub s : string) : bool :=
  String.prefix sub s ||
  match s with
  | EmptyString => false
  | String _ s' => str_contains sub s'
  end.

(** ** Floats and integers *)

(** The exact rational value of a finite float. *)
Definition float_value (f : spec_float) : option Q :=
  match f with
  | S754_zero _ => Some 0%Q
  | S754_finite s m e =>
      let n := if s then Z.neg m else Z.pos m in
      Some (if 0 <=? e then inject_Z (n * 2 ^ e)
            else Qmake n (Z.to_pos (2 ^ (- e))))
  | S754_infinity _ | S754_nan => None
  end.

(** [math.floor(f)], where it is defined. *)
Definition float_floor (f : spec_float) : option Z :=
  Qfloor <$> float_value f.

(** Rounding a rational toward zero. *)
Definition Qtrunc (q : Q) : Z := Z.quot (Qnum q) (Z.pos (Qden q)).

(** [a / b] on integers, [b > 0]: the quotient correctly rounded to the
    nearest float (ties to even). *)
Definition int_truediv (a : Z) (b : positive) : spec_float :=
  match a with
  | Z0 => S754_zero false
  | Z.pos m => SFdiv prec emax (S754_finite false m 0) (S754_finite false b 0)
  | Z.neg m => SFdiv prec emax (S754_finite true m 0) (S754_finite false b 0)
  end.

(** [str(n)] and zero-padded decimal fields, as [%02d] prints them. *)
Definition str_int (n : Z) : string := pretty n.

Fixpoint zeros (k : nat) : string :=
  match k with
  | O => ""
  | S k' => "0" +:+ zeros k'
  end.

Definition zfill (width : nat) (n : Z) : string :=
  let s := str_int n in
  zeros (width - String.length s)%nat +:+ s.

(** ** The wall clock: [datetime] objects in UTC *)

Record datetime : Type := mk_datetime {
  year : Z; month : Z; day : Z;
  hour : Z; minute : Z; second : Z; microsecond : Z
}.

(** The ranges the [datetime] constructor enforces. *)
Definition valid_datetime (t : datetime) : Prop :=
  1 <= year t <= 9999 /\ 1 <= month t <= 12 /\ 1 <= day t <= 31 /\
  0 <= hour t < 24 /\ 0 <= minute t < 60 /\ 0 <= second t < 60 /\
  0 <= microsecond t < 1000000.

(** What [datetime.now(timezone.utc)] can return on a running server: a
    valid datetime that is not before 1970, since the wall clock of the
    operating system does not read before the epoch. *)
Definition wall_clock_reading (t : datetime) : Prop :=
  valid_datetime t /\ 1970 <= year t.

Definition _is_leap (y : Z) : bool :=
  (y mod 4 =? 0) && (negb (y mod 100 =? 0) || (y mod 400 =? 0)).

Definition _days_before_year (y : Z) : Z :=
  let y := y - 1 in
  y * 365 + y / 4 - y / 100 + y / 400.

Definition _DAYS_BEFORE_MONTH (m : Z) : Z :=
  match m with
  | 1 => 0 | 2 => 31 | 3 => 59 | 4 => 90 | 5 => 120 | 6 => 151
  | 7 => 181 | 8 => 212 | 9 => 243 | 10 => 273 | 11 => 304 | 12 => 334
  | _ => -1
  end.

Definition _days_before_month (y m : Z) : Z :=
  _DAYS_BEFORE_MONTH m + (if (2 <? m) && _is_leap y then 1 else 0).

Definition _ymd2ord (y m d : Z) : Z :=
  _days_before_year y + _days_before_month y m + d.

Definition toordinal (t : datetime) : Z := _ymd2ord (year t) (month t) (day t).

(** 1970-01-01T00:00:00+00:00 *)
Definition _EPOCH : datetime := mk_datetime 1970 1 1 0 0 0 0.

(** [(t - _EPOCH)] in microseconds: the subtraction of two aware
    datetimes of the same zone. *)
Definition microseconds_since_epoch (t : datetime) : Z :=
  ((toordinal t - toordinal _EPOCH) * 86400
   + (hour t * 3600 + minute t * 60 + second t)) * 1000000
  + microsecond t.

(** [t.timestamp()] is [(t - _EPOCH).total_seconds()]: the microsecond
    count divided by [10**6] in float arithmetic. *)
Definition timestamp (t : datetime) : spec_float :=
  int_truediv (microseconds_since_epoch t) 1000000.

(** [t.isoformat()] for a UTC datetime; the fraction is printed only
    when it is not zero. *)
Definition isoformat (t : datetime) : string :=
  zfill 4 (year t) +:+ "-" +:+ zfill 2 (month t) +:+ "-" +:+ zfill 2 (day t)
  +:+ "T" +:+ zfill 2 (hour t) +:+ ":" +:+ zfill 2 (minute t) +:+ ":"
  +:+ zfill 2 (second t)
  +:+ (if microsecond t =? 0 then "" else "." +:+ zfill 6 (microsecond t))
  +:+ "+00:00".

(** [t.strftime("%Y-%m-%d %H:%M:%S UTC")], the year on four digits. *)
Definition strftime_utc (t : datetime) : string :=
  zfill 4 (year t) +:+ "-" +:+ zfill 2 (month t) +:+ "-" +:+ zfill 2 (day t)
  +:+ " " +:+ zfill 2 (hour t) +:+ ":" +:+ zfill 2 (minute t) +:+ ":"
  +:+ zfill 2 (second t) +:+ " UTC".

(** ** Exceptions, module state and the monad of handlers *)

(** The exceptions the built-in operations used here raise; all of them
    derive from [Exception].  The argument is the text [str(e)] gives. *)
Inductive exn : Type :=
| TypeError (msg : string)
| AttributeError (msg : string)
| OverflowError (msg : string)
| ValueError (msg : string).

Definition exn_str (e : exn) : string :=
  match e with
  | TypeError msg | AttributeError msg | OverflowError msg | ValueError msg => msg
  end.

(** The function objects that can be stored in the registry. *)
Inductive callable : Type :=
| fn_tool_echo.

Inductive log_level : Type := INFO | ERROR.

(** What a request can observe or change: the module-level registry,
    the records handed to the logger, and the clock reading that
    [datetime.now] returns. *)
Record state : Type := mk_state {
  TOOL_HANDLERS : gmap string callable;
  log : list (log_level * string);
  clock : datetime
}.

Inductive outcome (A : Type) : Type :=
| Return (a : A)
| Raise (e : exn).
Arguments Return {A} a.
Arguments Raise {A} e.

Definition M (A : Type) : Type := state -> outcome A * state.

#[local] Instance M_ret : MRet M := fun A a st => (Return a, st).
#[local] Instance M_bind : MBind M := fun A B k m st =>
  match m st with
  | (Return a, st') => k a st'
  | (Raise e, st') => (Raise e, st')
  end.

Definition raise {A : Type} (e : exn) : M A := fun st => (Raise e, st).

(** [try: body  except Exception as e: handler(e)] *)
Definition try_except {A : Type} (body : M A) (handler : exn -> M A) : M A :=
  fun st =>
    match body st with
    | (Return a, st') => (Return a, st')
    | (Raise e, st') => handler e st'
    end.

Definition logger_info (msg : string) : M unit := fun st =>
  (Return tt, mk_state (TOOL_HANDLERS st) (log st ++ [(INFO, msg)]) (clock st)).

Definition logger_error (msg : string) : M unit := fun st =>
  (Return tt, mk_state (TOOL_HANDLERS st) (log st ++ [(ERROR, msg)]) (clock st)).

(** [datetime.now(timezone.utc)] *)
Definition datetime_now_utc : M datetime := fun st => (Return (clock st), st).

(** [int(f)]: truncation toward zero; infinities and NaN are refused. *)
Definition py_int (f : spec_float) : M Z :=
  match float_value f with
  | Some q => mret (Qtrunc q)
  | None =>
      match f with
      | S754_nan => raise (ValueError "cannot convert float NaN to integer")
      | _ => raise (OverflowError "cannot convert float infinity to integer")
      end
  end.

(** [v.get(key, default)] on an arbitrary value: only a [dict] has the
    method. *)
Definition py_get (v : json) (key : string) (default : json) : M json :=
  match v with
  | JDict d => mret (dict_get_default key default d)
  | _ => raise (AttributeError
           ("'" +:+ type_name v +:+ "' object has no attribute 'get'"))
  end.

(** [TOOL_HANDLERS.get(key)]: the key is hashed first, which lists and
    dicts refuse; every key of the registry is a string, so no other
    value finds an entry. *)
Definition registry_get (key : json) : M (option callable) :=
  match key with
  | JStr s => fun st => (Return (TOOL_HANDLERS st !! s), st)
  | JList _ | JDict _ =>
      raise (TypeError ("unhashable type: '" +:+ type_name key +:+ "'"))
  | _ => mret None
  end.

(** [TOOL_HANDLERS[tool_name] = func], the effect of the [register_tool]
    decorator and of the direct registration. *)
Definition register_tool (tool_name : string) (func : callable) : M unit :=
  fun st => (Return tt,
             mk_state (<[tool_name := func]> (TOOL_HANDLERS st)) (log st) (clock st)).

(** ** The envelope codec ([app/json_rpc.py]) *)

(** Modelled from the spec: the request model [JsonRpcRequest] of
    [app/json_rpc.py], which is not part of the sources at hand.  The
    spec's request envelope has a protocol-version marker, a [method]
    string, optional [params] (an object or an ordered list) and an
    optional correlation [id]; an omitted field reads as [None]. *)
Record JsonRpcRequest : Type := mk_request {
  jsonrpc : string;
  method : string;
  params : json;
  id : json
}.

(** Modelled from the spec: the error object of an error envelope,
    [{code: symbolic kind, message: string, data: optional value}]. *)
Record JsonRpcError : Type := mk_error {
  code : string;
  message : string;
  data : json
}.

(** Modelled from the spec: the two response envelopes,
    [{jsonrpc, result, id}] and [{jsonrpc, error, id}]. *)
Inductive response : Type :=
| JsonRpcResponse (version : string) (result : json) (rid : json)
| JsonRpcErrorResponse (version : string) (error : JsonRpcError) (rid : json).

(** Modelled from the spec: [create_success_response] of
    [app/json_rpc.py]; it always includes the protocol-version marker and
    passes [id] through verbatim. *)
Definition create_success_response (result rid : json) : response :=
  JsonRpcResponse "2.0" result rid.

(** Modelled from the spec: [create_error_response] of
    [app/json_rpc.py]; [kind] is the symbolic error code. *)
Definition create_error_response (kind msg : string) (rid data : json) : response :=
  JsonRpcErrorResponse "2.0" (mk_error kind msg data) rid.

Definition response_version (r : response) : string :=
  match r with
  | JsonRpcResponse v _ _ | JsonRpcErrorResponse v _ _ => v
  end.

Definition response_id (r : response) : json :=
  match r with
  | JsonRpcResponse _ _ i | JsonRpcErrorResponse _ _ i => i
  end.

Definition is_error_response (r : response) : bool :=
  match r with
  | JsonRpcResponse _ _ _ => false
  | JsonRpcErrorResponse _ _ _ => true
  end.

(** An envelope is well formed when it carries the marker ["2.0"] and
    either a result or an error object with a non-empty symbolic code. *)
Definition well_formed (r : response) : bool :=
  String.eqb (response_version r) "2.0" &&
  match r with
  | JsonRpcResponse _ _ _ => true
  | JsonRpcErrorResponse _ e _ => negb (String.eqb (code e) "")
  end.

(** ** The handlers of [mcp.py] *)

Section Dispatcher.

(** [repr] of the values whose text [str] takes from it: floats, lists
    and dicts.  It is a built-in of the language, left abstract. *)
Variable builtin_repr : json -> string.

(** [f"{v}"] *)
Definition format_value (v : json) : string :=
  match v with
  | JNone => "None"
  | JBool true => "True"
  | JBool false => "False"
  | JInt n => str_int n
  | JStr s => s
  | JFloat _ | JList _ | JDict _ => builtin_repr v
  end.

Definition handle_time (params : json) : M json :=
  now ← datetime_now_utc;
  unix_timestamp ← py_int (timestamp now);
  mret (JDict [
    ("method", JStr "time");
    ("server_time", JDict [
       ("iso_format", JStr (isoformat now));
       ("timestamp", JFloat (timestamp now));
       ("unix_timestamp", JInt unix_timestamp);
       ("formatted", JStr (strftime_utc now));
       ("timezone", JStr "UTC")]);
    ("message", JStr "Time retrieved successfully")]).

Definition handle_initialize (params : json) : M json :=
  mret (JDict [
    ("protocolVersion", JStr "2024-11-05");
    ("capabilities", JDict [
       ("tools", JDict [("listChanged", JBool false)]);
       ("prompts", JDict [("listChanged", JBool false)]);
       ("resources", JDict [("subscribe", JBool false);
                            ("listChanged", JBool false)]);
       ("logging", JDict [])]);
    ("serverInfo", JDict [("name", JStr "embed-mcp");
                          ("version", JStr "1.0.0")]);
    ("instructions", JStr "MCP Server initialized successfully")]).

Definition handle_notifications_initialized (params : json) : M json :=
  logger_info "Client initialization completed";;
  mret (JDict [("status", JStr "acknowledged");
               ("message", JStr "Server ready for requests")]).

Definition handle_tools_list (params : json) : M json :=
  let tools := [
    JDict [
      ("name", JStr "echo");
      ("description", JStr "Echoes back the provided message.");
      ("inputSchema", JDict [
         ("type", JStr "object");
         ("properties", JDict [
            ("message", JDict [
               ("type", JStr "string");
               ("description", JStr "Message to echo back")])]);
         ("required", JList [JStr "message"])])]] in
  mret (JDict [("tools", JList tools)]).

Definition tool_echo (arguments : json) : M json :=
  msg ← py_get arguments "message" (JStr "");
  mret (JDict [("content", JList [JDict [("type", JStr "text");
                                         ("text", msg)]])]).

(** Calling a registered function object. *)
Definition call (f : callable) (arguments : json) : M json :=
  match f with
  | fn_tool_echo => tool_echo arguments
  end.

(** Module initialisation: the empty registry, then the direct
    registration of the echo tool. *)
Definition module_init (now : datetime) : state :=
  snd (register_tool "echo" fn_tool_echo (mk_state ∅ [] now)).

Definition handle_tools_call (params : json) : M json :=
  logger_info "Handling 'tools/call' method";;
  if negb (truthy params) || negb (is_dict params) then
    mret (JDict [("error", JStr "Invalid parameters for tools/call")])
  else
    tool_name ← py_get params "name" JNone;
    arguments ← py_get params "arguments" (JDict []);
    if negb (truthy tool_name) then
      mret (JDict [("error", JStr "Tool name is required")])
    else
      handler ← registry_get tool_name;
      match handler with
      | None =>
          mret (JDict [("error",
                        JStr ("Unknown tool: " +:+ format_value tool_name))])
      | Some h => call h arguments
      end.

Definition handle_request (request : JsonRpcRequest) : M response :=
  try_except
    (let method := method request in
     let params := params request in
     logger_info ("Handling MCP request: " +:+ method);;
     if String.eqb method "initialize" then
       result ← handle_initialize params;
       mret (create_success_response result (id request))
     else if String.eqb method "notifications/initialized" then
       result ← handle_notifications_initialized params;
       mret (create_success_response result (id request))
     else if String.eqb method "time" then
       result ← handle_time params;
       mret (create_success_response result (id request))
     else if String.eqb method "tools/list" then
       result ← handle_tools_list params;
       mret (create_success_response result (id request))
     else if String.eqb method "tools/call" then
       result ← handle_tools_call params;
       mret (create_success_response result (id request))
     else
       mret (create_error_response "METHOD_NOT_FOUND"
               ("Method not found: " +:+ method) (id request) JNone))
    (fun e =>
       logger_error ("Error handling MCP request " +:+ method request
                     +:+ ": " +:+ exn_str e);;
       mret (create_error_response "INTERNAL_ERROR"
               ("Internal error: " +:+ exn_str e) (id request) JNone)).

End Dispatcher.

(** The handler the dispatcher's routing chain selects for a method
    name; [None] for a name outside the chain. *)
Definition method_handler (builtin_repr : json -> string) (m : string)
    : option (json -> M json) :=
  if String.eqb m "initialize" then Some handle_initialize
  else if String.eqb m "notifications/initialized" then
    Some handle_notifications_initialized
  else if String.eqb m "time" then Some handle_time
  else if String.eqb m "tools/list" then Some handle_tools_list
  else if String.eqb m "tools/call" then Some (handle_tools_call builtin_repr)
  else None.

(** Serving a sequence of requests, each with the clock reading the
    server observes while it handles it. *)
Fixpoint serve (builtin_repr : json -> string)
    (traffic : list (datetime * JsonRpcRequest)) (st : state)
    : list (outcome response) * state :=
  match traffic with
  | [] => ([], st)
  | (now, request) :: rest =>
      let '(r, st') :=
        handle_request builtin_repr request
          (mk_state (TOOL_HANDLERS st) (log st) now) in
      let '(rs, st'') := serve builtin_repr rest st' in
      (r :: rs, st'')
  end.

(** A stand-in for [repr], used to run the dispatcher on requests that
    never print a float, a list or a dict. *)
Definition repr_stub (v : json) : string := "<" +:+ type_name v +:+ ">".

(** A state whose registry also holds a handler under the empty name. *)
Definition state_with_unnamed_tool : state :=
  mk_state (<["" := fn_tool_echo]> {["echo" := fn_tool_echo]}) [] _EPOCH.

(** The state after one record went to the logger. *)
Definition logged (lvl : log_level) (msg : string) (st : state) : state :=
  mk_state (TOOL_HANDLERS st) (log st ++ [(lvl, msg)]) (clock st).


(** What the echo tool is given as text to echo, for the parameters [d]
    of a [tools/call] request. *)
Inductive echo_text (d : list (string * json)) : json -> Prop :=
| echo_message (arguments : list (string * json)) (m : string) :
    dict_get "arguments" d = Some (JDict arguments) ->
    dict_get "message" arguments = Some (JStr m) ->
    echo_text d (JStr m)
| echo_no_arguments :
    dict_get "arguments" d = None ->
    echo_text d (JStr "")
| echo_no_message (arguments : list (string * json)) :
    dict_get "arguments" d = Some (JDict arguments) ->
    dict_get "message" arguments = None ->
    echo_text d (JStr "").

(** A computation leaves the registry as it found it, whether it
    returns or raises. *)
Definition preserves_registry {A : Type} (m : M A) : Prop :=
  forall st, TOOL_HANDLERS (snd (m st)) = TOOL_HANDLERS st.

(** The request [r] with its parameters replaced. *)
Definition with_params (r : JsonRpcRequest) (p : json) : JsonRpcRequest :=
  mk_request (jsonrpc r) (method r) p (id r).

(** A computation only appends to the log and leaves the clock alone,
    whether it returns or raises. *)
Definition extends_log {A : Type} (m : M A) : Prop :=
  forall st, clock (snd (m st)) = clock st
             /\ exists records, log (snd (m st)) = (log st ++ records)%list.

(** The values a registry lookup accepts as a key without finding
    anything: truthy values that hash and are not strings. *)
Definition scalar_key (v : json) : bool :=
  match v with
  | JBool _ | JInt _ | JFloat _ => truthy v
  | _ => false
  end.

(** Non-empty lists and dicts: truthy values that do not hash. *)
Definition unhashable_key (v : json) : bool :=
  match v with
  | JList _ | JDict _ => truthy v
  | _ => false
  end.

(** ** API-key authentication ([app/auth.py]) *)

Module Auth.

(** [fastapi.HTTPException], with the fields the code sets. *)
Record HTTPException : Type := mk_http_exception {
  status_code : Z;
  detail : string;
  headers : list (string * string)
}.

(** [status.HTTP_401_UNAUTHORIZED] *)
Definition HTTP_401_UNAUTHORIZED : Z := 401.

(** [s == v] for a string [s] and any value [v]: only an equal string
    compares equal. *)
Definition str_eq (s : string) (v : json) : bool :=
  match v with
  | JStr t => String.eqb s t
  | _ => false
  end.

Section Config.

(** The configured key [MCP_API_KEY] of [app/config.py], which is not
    part of the sources at hand: some Python value. *)
Variable MCP_API_KEY : json.

Definition verify_api_key (api_key : string) : bool :=
  str_eq api_key MCP_API_KEY.

(** The header value is [None] when the request has no [MCP-API-Key]
    header.  The function returns [True] or raises. *)
Definition verify_mcp_api_key (mcp_api_key : option string)
    : HTTPException + bool :=
  match mcp_api_key with
  | None | Some "" =>
      inl (mk_http_exception HTTP_401_UNAUTHORIZED
             "Missing API key. Please provide MCP-API-Key header."
             [("WWW-Authenticate", "Bearer")])
  | Some key =>
      if negb (verify_api_key key) then
        inl (mk_http_exception HTTP_401_UNAUTHORIZED
               "Invalid API key"
               [("WWW-Authenticate", "Bearer")])
      else inr true
  end.

End Config.

End Auth.

(** ** The database layer ([app/db.py]) and start-up ([app/main.py]) *)

Module Db.

(** What the database calls raise: [sqlite3.Error] (and its subclasses)
    or some other [Exception].  The argument is the text of [str(e)]. *)
Inductive db_exn : Type :=
| sqlite3_Error (msg : string)
| OtherException (msg : string).

Definition db_exn_str (e : db_exn) : string :=
  match e with
  | sqlite3_Error msg | OtherException msg => msg
  end.

(** The calls made on the [sqlite3] module and on a connection; a
    connection is named by the number of connections opened before it. *)
Inductive db_call : Type :=
| connect (database : string)
| execute (conn : nat) (sql : string) (parameters : list string)
| commit (conn : nat)
| rollback (conn : nat)
| close (conn : nat).

(** The calls made so far with what each one raised, most recent first. *)
Definition history : Type := list (db_call * option db_exn).

(** The database decides, from what happened so far, whether a call
    raises. *)
Definition environment : Type := history -> db_call -> option db_exn.

Record db_state : Type := mk_db_state {
  calls : history;
  db_log : list (log_level * string)
}.

Inductive db_outcome (A : Type) : Type :=
| Returns (a : A)
| Raises (e : db_exn).
Arguments Returns {A} a.
Arguments Raises {A} e.

Definition DbM (A : Type) : Type :=
  environment -> db_state -> db_outcome A * db_state.

Definition ret {A : Type} (a : A) : DbM A := fun env st => (Returns a, st).

Definition bind {A B : Type} (m : DbM A) (k : A -> DbM B) : DbM B :=
  fun env st =>
    match m env st with
    | (Returns a, st') => k a env st'
    | (Raises e, st') => (Raises e, st')
    end.

Definition throw {A : Type} (e : db_exn) : DbM A := fun env st => (Raises e, st).

(** [try: body  except Exception as e: handler(e)] *)
Definition try_except {A : Type} (body : DbM A) (handler : db_exn -> DbM A)
    : DbM A :=
  fun env st =>
    match body env st with
    | (Returns a, st') => (Returns a, st')
    | (Raises e, st') => handler e env st'
    end.

(** [try: body  except sqlite3.Error as e: handler(e)] *)
Definition try_except_sqlite3 {A : Type} (body : DbM A)
    (handler : db_exn -> DbM A) : DbM A :=
  fun env st =>
    match body env st with
    | (Raises (sqlite3_Error msg), st') => handler (sqlite3_Error msg) env st'
    | other => other
    end.

(** [try: body  finally: final]: the final block always runs, and what it
    raises replaces the outcome of the body. *)
Definition try_finally {A : Type} (body : DbM A) (final : DbM unit) : DbM A :=
  fun env st =>
    match body env st with
    | (o, st') =>
        match final env st' with
        | (Returns _, st'') => (o, st'')
        | (Raises e, st'') => (Raises e, st'')
        end
    end.

(** One call on the database: the environment lets it through or makes
    it raise; either way it enters the history. *)
Definition do_call (c : db_call) : DbM unit := fun env st =>
  match env (calls st) c with
  | None => (Returns tt, mk_db_state ((c, None) :: calls st) (db_log st))
  | Some e => (Raises e, mk_db_state ((c, Some e) :: calls st) (db_log st))
  end.

(** The connections opened so far. *)
Fixpoint opened (h : history) : nat :=
  match h with
  | [] => 0
  | (connect _, None) :: h' => S (opened h')
  | _ :: h' => opened h'
  end.

(** The calls of [close] made so far. *)
Fixpoint closed (h : history) : nat :=
  match h with
  | [] => 0
  | (close _, _) :: h' => S (closed h')
  | _ :: h' => closed h'
  end.

(** [sqlite3.connect(database)] *)
Definition sqlite3_connect (database : string) : DbM nat := fun env st =>
  match do_call (connect database) env st with
  | (Returns _, st') => (Returns (opened (calls st)), st')
  | (Raises e, st') => (Raises e, st')
  end.

Definition logger_info (msg : string) : DbM unit := fun env st =>
  (Returns tt, mk_db_state (calls st) (db_log st ++ [(INFO, msg)])).

Definition logger_error (msg : string) : DbM unit := fun env st =>
  (Returns tt, mk_db_state (calls st) (db_log st ++ [(ERROR, msg)])).

Definition SQL_CREATE_USERS : string :=
  "
            CREATE TABLE IF NOT EXISTS users (
                id INTEGER PRIMARY KEY AUTOINCREMENT,
                username TEXT UNIQUE NOT NULL,
                password_hash TEXT NOT NULL,
                created_at DATETIME DEFAULT CURRENT_TIMESTAMP
            )
        ".

Definition SQL_INSERT_ADMIN : string :=
  "
            INSERT OR IGNORE INTO users (username, password_hash) 
            VALUES (?, ?)
        ".

Definition SQL_CREATE_MCP_QUERIES : string :=
  "
            CREATE TABLE IF NOT EXISTS mcp_queries (
                id TEXT PRIMARY KEY,
                tool_name TEXT NOT NULL,
                input_data TEXT NOT NULL,
                output_data TEXT NOT NULL,
                execution_time_ms INTEGER,
                success BOOLEAN NOT NULL,
                error_message TEXT,
                created_date DATETIME DEFAULT CURRENT_TIMESTAMP
            )
        ".

Definition SQL_INDEX_TOOL_NAME : string :=
  "
            CREATE INDEX IF NOT EXISTS idx_mcp_queries_tool_name 
            ON mcp_queries(tool_name)
        ".

Definition SQL_INDEX_CREATED_DATE : string :=
  "
            CREATE INDEX IF NOT EXISTS idx_mcp_queries_created_date 
            ON mcp_queries(created_date)
        ".

Section Config.

(** [DB_PATH] of [app/config.py], which is not part of the sources at
    hand. *)
Variable DB_PATH : string.

(** [hashlib.sha256(data).hexdigest()], a function of the language's
    library, left abstract; a string stands for its UTF-8 bytes. *)
Variable sha256_hexdigest : string -> string.

Definition hash_password (password : string) : string :=
  sha256_hexdigest password.

Definition verify_password (password password_hash : string) : bool :=
  String.eqb (hash_password password) password_hash.

(** Setting [conn.row_factory] is an attribute assignment and is not a
    call on the database. *)
Definition get_db_connection : DbM nat :=
  try_except_sqlite3
    (bind (sqlite3_connect DB_PATH) (fun conn =>
     bind (do_call (execute conn "PRAGMA journal_mode=WAL" [])) (fun _ =>
     ret conn)))
    (fun e =>
       bind (logger_error ("Database connection error: " +:+ db_exn_str e))
         (fun _ => throw e)).

Definition init_database : DbM unit :=
  bind get_db_connection (fun conn =>
  try_finally
    (try_except
       (bind (do_call (execute conn SQL_CREATE_USERS [])) (fun _ =>
        let admin_password := hash_password "admin123" in
        bind (do_call (execute conn SQL_INSERT_ADMIN
                         ["admin"; admin_password])) (fun _ =>
        bind (do_call (commit conn)) (fun _ =>
        logger_info "Database initialized successfully"))))
       (fun e =>
          bind (logger_error ("Error initializing database: " +:+ db_exn_str e))
            (fun _ => do_call (rollback conn))))
    (do_call (close conn))).

Definition mcp_db_init : DbM unit :=
  bind get_db_connection (fun conn =>
  try_finally
    (try_except
       (bind (do_call (execute conn SQL_CREATE_MCP_QUERIES [])) (fun _ =>
        bind (do_call (execute conn SQL_INDEX_TOOL_NAME [])) (fun _ =>
        bind (do_call (execute conn SQL_INDEX_CREATED_DATE [])) (fun _ =>
        bind (do_call (commit conn)) (fun _ =>
        logger_info "MCP database tables initialized successfully")))))
       (fun e =>
          bind (logger_error ("Error initializing MCP database: "
                              +:+ db_exn_str e)) (fun _ =>
          bind (do_call (rollback conn)) (fun _ =>
          throw e))))
    (do_call (close conn))).

(** The start-up half of [lifespan] in [app/main.py], up to its [yield];
    [asyncio.to_thread] runs the function and hands back its outcome. *)
Definition lifespan_startup : DbM unit :=
  try_except
    (bind init_database (fun _ =>
     bind mcp_db_init (fun _ =>
     logger_info "Initialize database")))
    (fun e =>
       logger_error ("Failed to initialize application: " +:+ db_exn_str e)).

(** The shut-down half of [lifespan], after its [yield]. *)
Definition lifespan_shutdown : DbM unit :=
  try_except
    (logger_info "Application shutting down")
    (fun e =>
       logger_error ("Failed to shut down application: " +:+ db_exn_str e)).

End Config.

(** The environment never makes the call [c] raise. *)
Definition never_fails (env : environment) (c : db_call) : Prop :=
  forall h, env h c = None.

(** Some call of the history raised. *)
Definition some_failed (h : history) : bool :=
  existsb (fun entry => match snd entry with Some _ => true | None => false end) h.

(** A call of [rollback] is in the history. *)
Definition rolled_back (h : history) : bool :=
  existsb (fun entry => match fst entry with rollback _ => true | _ => false end) h.

(** A call of [commit] that did not raise is in the history. *)
Definition committed (h : history) : bool :=
  existsb (fun entry => match entry with (commit _, None) => true | _ => false end) h.

(** Some environments: a database on which everything works, one that
    makes the statement [sql] raise, and one that refuses to open. *)
Definition works : environment := fun _ _ => None.

Definition fails_on (sql : string) (e : db_exn) : environment := fun _ c =>
  match c with
  | execute _ q _ => if String.eqb q sql then Some e else None
  | _ => None
  end.

Definition refuses_connection (e : db_exn) : environment := fun _ c =>
  match c with
  | connect _ => Some e
  | _ => None
  end.

(** A stand-in for the digest, used to run the initialisers. *)
Definition digest_stub (data : string) : string :=
  "<sha256 of " +:+ data +:+ ">".

(** The state before anything was called or logged. *)
Definition fresh : db_state := mk_db_state [] [].

End Db.

(** * Properties *)

(** ** Strings *)

Lemma prefix_app (s t : string) : String.prefix s (s +:+ t) = true.
Proof.
  induction s as [|a s IH].
  - now destruct t.
  - change (String.prefix (String a s) (String a (s +:+ t)) = true).
    cbn [String.prefix]. destruct (Ascii.ascii_dec a a); [exact IH | congruence].
Qed.

Lemma prefix_contains (sub s : string) :
  String.prefix sub s = true -> str_contains sub s = true.
Proof. intros H. destruct s; cbn [str_contains]; rewrite H; reflexivity. Qed.

Lemma str_contains_app (sub pre post : string) :
  str_contains sub (pre +:+ (sub +:+ post)) = true.
Proof.
  induction pre as [|a pre IH].
  - change (str_contains sub (sub +:+ post) = true).
    apply prefix_contains, prefix_app.
  - change (str_contains sub (String a (pre +:+ (sub +:+ post))) = true).
    cbn [str_contains]. rewrite IH. apply orb_true_r.
Qed.

Lemma str_contains_suffix (sub pre : string) :
  str_contains sub (pre +:+ sub) = true.
Proof.
  assert (H : sub +:+ "" = sub).
  { clear. induction sub as [|a sub IH]; [reflexivity|].
    change (String a (sub +:+ "") = String a sub). now rewrite IH. }
  rewrite <- (str_contains_app sub pre ""). now rewrite H.
Qed.

(** ** How the dispatcher wraps a handler *)

(** Unfolding the monad's operations, leaving the handlers folded. *)
Ltac run_monad :=
  unfold try_except, mbind, M_bind, mret, M_ret, raise,
    logger_info, logger_error, datetime_now_utc;
  cbv beta iota zeta.

Section Wrapping.

Variable builtin_repr : json -> string.

(** For a method of the routing chain the dispatcher logs the request,
    runs the handler and wraps its result; a failure goes to the
    [except] clause. *)
Lemma handle_request_known (request : JsonRpcRequest) (h : json -> M json) :
  method_handler builtin_repr (method request) = Some h ->
  forall st,
    handle_request builtin_repr request st =
    match h (params request)
            (logged INFO ("Handling MCP request: " +:+ method request) st) with
    | (Return result, st') =>
        (Return (create_success_response result (id request)), st')
    | (Raise e, st') =>
        (Return (create_error_response "INTERNAL_ERROR"
                   ("Internal error: " +:+ exn_str e) (id request) JNone),
         logged ERROR ("Error handling MCP request " +:+ method request
                       +:+ ": " +:+ exn_str e) st')
    end.
Proof.
  unfold method_handler, handle_request, logged. intros Hsel st.
  repeat match type of Hsel with
         | (if ?b then _ else _) = _ => destruct b
         end;
    try discriminate; injection Hsel as <-; run_monad;
    match goal with
    | |- _ = match ?run with _ => _ end => destruct run as [[result|e] st']
    end; reflexivity.
Qed.

Lemma handle_request_unknown (request : JsonRpcRequest) :
  method_handler builtin_repr (method request) = None ->
  forall st,
    handle_request builtin_repr request st =
    (Return (create_error_response "METHOD_NOT_FOUND"
               ("Method not found: " +:+ method request) (id request) JNone),
     logged INFO ("Handling MCP request: " +:+ method request) st).
Proof.
  unfold method_handler, handle_request. intros Hsel st.
  repeat match type of Hsel with
         | (if ?b then _ else _) = _ => destruct b
         end;
    try discriminate; reflexivity.
Qed.

End Wrapping.

(** ** Unknown methods *)

Lemma method_handler_unknown (builtin_repr : json -> string) (m : string) :
  m <> "initialize" -> m <> "notifications/initialized" -> m <> "time" ->
  m <> "tools/list" -> m <> "tools/call" ->
  method_handler builtin_repr m = None.
Proof.
  intros H1 H2 H3 H4 H5. unfold method_handler.
  apply String.eqb_neq in H1, H2, H3, H4, H5.
  now rewrite H1, H2, H3, H4, H5.
Qed.

(** C2: a request whose method is none of [initialize],
    [notifications/initialized], [time], [tools/list], [tools/call] gets
    an error envelope of kind [METHOD_NOT_FOUND]; its message contains the
    method string and its id is the request's id. *)
Theorem unknown_method_not_found
    (builtin_repr : json -> string) (request : JsonRpcRequest) (st : state) :
  method request <> "initialize" ->
  method request <> "notifications/initialized" ->
  method request <> "time" ->
  method request <> "tools/list" ->
  method request <> "tools/call" ->
  exists msg st',
    handle_request builtin_repr request st =
      (Return (JsonRpcErrorResponse "2.0"
                 (mk_error "METHOD_NOT_FOUND" msg JNone) (id request)), st')
    /\ str_contains (method request) msg = true.
Proof.
  intros H1 H2 H3 H4 H5.
  exists ("Method not found: " +:+ method request). eexists. split.
  - apply handle_request_unknown, method_handler_unknown; assumption.
  - apply str_contains_suffix.
Qed.

Lemma unknown_method_not_found_witness :
  exists msg st',
    handle_request repr_stub (mk_request "2.0" "resources/list" JNone (JInt 7))
      (module_init _EPOCH) =
      (Return (JsonRpcErrorResponse "2.0"
                 (mk_error "METHOD_NOT_FOUND" msg JNone) (JInt 7)), st')
    /\ str_contains "resources/list" msg = true.
Proof.
  apply (unknown_method_not_found repr_stub
           (mk_request "2.0" "resources/list" JNone (JInt 7)));
    simpl; discriminate.
Defined.

(** ** Failing handlers *)

(** C3: when the handler selected for the request's method raises an
    exception, the dispatcher returns (it does not raise) an error
    envelope of kind [INTERNAL_ERROR] with the request's id, whose message
    contains the text of the exception. *)
Theorem handler_exception_internal_error
    (builtin_repr : json -> string) (request : JsonRpcRequest)
    (h : json -> M json) (st st1 : state) (e : exn) :
  method_handler builtin_repr (method request) = Some h ->
  h (params request)
    (logged INFO ("Handling MCP request: " +:+ method request) st)
    = (Raise e, st1) ->
  exists msg st',
    handle_request builtin_repr request st =
      (Return (JsonRpcErrorResponse "2.0"
                 (mk_error "INTERNAL_ERROR" msg JNone) (id request)), st')
    /\ str_contains (exn_str e) msg = true.
Proof.
  intros Hsel Hraise.
  exists ("Internal error: " +:+ exn_str e). eexists. split.
  - rewrite (handle_request_known _ _ _ Hsel), Hraise. reflexivity.
  - apply str_contains_suffix.
Qed.

Lemma handler_exception_internal_error_witness :
  exists msg st',
    handle_request repr_stub
      (mk_request "2.0" "tools/call"
         (JDict [("name", JStr "echo"); ("arguments", JStr "hi")]) (JInt 3))
      (module_init _EPOCH) =
      (Return (JsonRpcErrorResponse "2.0"
                 (mk_error "INTERNAL_ERROR" msg JNone) (JInt 3)), st')
    /\ str_contains "'str' object has no attribute 'get'" msg = true.
Proof.
  eapply (handler_exception_internal_error repr_stub
            (mk_request "2.0" "tools/call"
               (JDict [("name", JStr "echo"); ("arguments", JStr "hi")])
               (JInt 3))
            (handle_tools_call repr_stub) (module_init _EPOCH) _
            (AttributeError "'str' object has no attribute 'get'")).
  - reflexivity.
  - vm_compute. reflexivity.
Defined.

(** ** Totality *)

(** C4: the dispatcher is total.  Every request, whatever its method and
    whether or not it carries an id, gets one envelope, success or error,
    that is well formed and carries the request's id. *)
Theorem handle_request_total
    (builtin_repr : json -> string) (request : JsonRpcRequest) (st : state) :
  exists resp st',
    handle_request builtin_repr request st = (Return resp, st')
    /\ well_formed resp = true
    /\ response_id resp = id request.
Proof.
  destruct (method_handler builtin_repr (method request)) as [h|] eqn:Hsel.
  - rewrite (handle_request_known _ _ _ Hsel).
    destruct (h (params request) _) as [[result|e] st'];
      eexists; eexists; (split; [reflexivity | split; reflexivity]).
  - rewrite (handle_request_unknown _ _ Hsel).
    eexists; eexists; (split; [reflexivity | split; reflexivity]).
Qed.

(** ** The registry is read-only during dispatch *)

Section Frame.

Context {A B : Type}.

Lemma preserves_ret (a : A) : preserves_registry (mret a).
Proof. intros st. reflexivity. Qed.

Lemma preserves_raise (e : exn) : preserves_registry (@raise A e).
Proof. intros st. reflexivity. Qed.

Lemma preserves_bind (m : M A) (k : A -> M B) :
  preserves_registry m -> (forall a, preserves_registry (k a)) ->
  preserves_registry (m ≫= k).
Proof.
  intros Hm Hk st. unfold mbind, M_bind.
  specialize (Hm st). destruct (m st) as [[a|e] st']; simpl in *.
  - now rewrite Hk.
  - exact Hm.
Qed.

Lemma preserves_try_except (body : M A) (handler : exn -> M A) :
  preserves_registry body -> (forall e, preserves_registry (handler e)) ->
  preserves_registry (try_except body handler).
Proof.
  intros Hb Hh st. unfold try_except.
  specialize (Hb st). destruct (body st) as [[a|e] st']; simpl in *.
  - exact Hb.
  - now rewrite Hh.
Qed.

End Frame.

Lemma preserves_logger_info (msg : string) : preserves_registry (logger_info msg).
Proof. intros st. reflexivity. Qed.

Lemma preserves_logger_error (msg : string) : preserves_registry (logger_error msg).
Proof. intros st. reflexivity. Qed.

Lemma preserves_datetime_now_utc : preserves_registry datetime_now_utc.
Proof. intros st. reflexivity. Qed.

Lemma preserves_py_int (f : spec_float) : preserves_registry (py_int f).
Proof.
  intros st. unfold py_int. destruct (float_value f); [|destruct f]; reflexivity.
Qed.

Lemma preserves_py_get (v : json) (key : string) (default : json) :
  preserves_registry (py_get v key default).
Proof. intros st. destruct v; reflexivity. Qed.

Lemma preserves_registry_get (key : json) : preserves_registry (registry_get key).
Proof. intros st. destruct key; reflexivity. Qed.

Create HintDb frame.
#[local] Hint Resolve preserves_ret preserves_raise preserves_logger_info
  preserves_logger_error preserves_datetime_now_utc preserves_py_int
  preserves_py_get preserves_registry_get : frame.

(** Going through a handler's body: binds, branches and the operations
    above. *)
Ltac frame :=
  repeat first
    [ solve [ auto with frame ]
    | apply preserves_bind; [ | intros ? ]
    | apply preserves_try_except; [ | intros ? ]
    | match goal with
      | |- preserves_registry (if ?b then _ else _) => destruct b
      | |- preserves_registry (match ?o with Some _ => _ | None => _ end) =>
          destruct o
      end ].

Lemma preserves_handle_initialize (p : json) :
  preserves_registry (handle_initialize p).
Proof. unfold handle_initialize. frame. Qed.

Lemma preserves_handle_notifications_initialized (p : json) :
  preserves_registry (handle_notifications_initialized p).
Proof. unfold handle_notifications_initialized. frame. Qed.

Lemma preserves_handle_time (p : json) : preserves_registry (handle_time p).
Proof. unfold handle_time. frame. Qed.

Lemma preserves_handle_tools_list (p : json) :
  preserves_registry (handle_tools_list p).
Proof. unfold handle_tools_list. frame. Qed.

Lemma preserves_tool_echo (arguments : json) :
  preserves_registry (tool_echo arguments).
Proof. unfold tool_echo. frame. Qed.

Lemma preserves_call (f : callable) (arguments : json) :
  preserves_registry (call f arguments).
Proof. destruct f. apply preserves_tool_echo. Qed.

Lemma preserves_handle_tools_call (builtin_repr : json -> string) (p : json) :
  preserves_registry (handle_tools_call builtin_repr p).
Proof. unfold handle_tools_call. frame. apply preserves_call. Qed.

#[local] Hint Resolve preserves_handle_initialize
  preserves_handle_notifications_initialized preserves_handle_time
  preserves_handle_tools_list preserves_handle_tools_call : frame.

Lemma preserves_handle_request
    (builtin_repr : json -> string) (request : JsonRpcRequest) :
  preserves_registry (handle_request builtin_repr request).
Proof. unfold handle_request. cbv zeta. frame. Qed.

Lemma serve_registry (builtin_repr : json -> string)
    (traffic : list (datetime * JsonRpcRequest)) (st : state) :
  TOOL_HANDLERS (snd (serve builtin_repr traffic st)) = TOOL_HANDLERS st.
Proof.
  revert st. induction traffic as [|[now request] rest IH]; intros st.
  - reflexivity.
  - cbn [serve].
    pose proof (preserves_handle_request builtin_repr request
                  (mk_state (TOOL_HANDLERS st) (log st) now)) as H.
    destruct (handle_request _ _ _) as [r st'].
    specialize (IH st'). destruct (serve _ rest st') as [rs st''].
    simpl in *. congruence.
Qed.

(** C9: module initialisation registers the echo tool, and no dispatch
    changes the registry: after [handle_request] the mapping is the one
    before it, so after any traffic the registry is the initial one and
    ["echo"] is still registered. *)
Theorem registry_preserved_by_dispatch :
  (forall now, TOOL_HANDLERS (module_init now) = {["echo" := fn_tool_echo]})
  /\ (forall builtin_repr request st,
        TOOL_HANDLERS (snd (handle_request builtin_repr request st))
        = TOOL_HANDLERS st)
  /\ (forall builtin_repr traffic now,
        let st' := snd (serve builtin_repr traffic (module_init now)) in
        TOOL_HANDLERS st' = TOOL_HANDLERS (module_init now)
        /\ TOOL_HANDLERS st' !! "echo" = Some fn_tool_echo).
Proof.
  split; [|split].
  - intros now. unfold module_init, register_tool. cbn [snd TOOL_HANDLERS].
    apply insert_empty.
  - intros. apply preserves_handle_request.
  - intros builtin_repr traffic now st'. subst st'.
    rewrite serve_registry. split; [reflexivity|].
    unfold module_init, register_tool. cbn [snd TOOL_HANDLERS].
    apply lookup_insert_eq.
Qed.

(** ** Initialisation and discovery *)

Lemma method_handler_initialize (builtin_repr : json -> string) :
  method_handler builtin_repr "initialize" = Some handle_initialize.
Proof. reflexivity. Qed.

(** C7: [initialize] is idempotent and free of side effects.  The handler
    returns its result and leaves the whole state as it was, whatever the
    parameters; two [initialize] requests, in whatever states, get the
    same result (protocol version, capabilities, server identity); the
    dispatcher leaves the registry and the clock untouched and only hands
    one record to the logger. *)
Theorem initialize_idempotent
    (builtin_repr : json -> string) (r1 r2 : JsonRpcRequest) (st1 st2 : state) :
  method r1 = "initialize" -> method r2 = "initialize" ->
  exists result,
    handle_initialize (params r1) st1 = (Return result, st1)
    /\ handle_initialize (params r2) st2 = (Return result, st2)
    /\ handle_request builtin_repr r1 st1 =
         (Return (create_success_response result (id r1)),
          logged INFO "Handling MCP request: initialize" st1)
    /\ handle_request builtin_repr r2 st2 =
         (Return (create_success_response result (id r2)),
          logged INFO "Handling MCP request: initialize" st2)
    /\ json_field "protocolVersion" result = Some (JStr "2024-11-05")
    /\ (exists capabilities,
          json_field "capabilities" result = Some (JDict capabilities))
    /\ json_field "serverInfo" result
         = Some (JDict [("name", JStr "embed-mcp"); ("version", JStr "1.0.0")]).
Proof.
  intros H1 H2. eexists. split; [reflexivity|]. split; [reflexivity|].
  split; [|split; [|split; [reflexivity|split; [eexists|]; reflexivity]]].
  - rewrite (handle_request_known builtin_repr r1 handle_initialize);
      rewrite H1; reflexivity.
  - rewrite (handle_request_known builtin_repr r2 handle_initialize);
      rewrite H2; reflexivity.
Qed.

Lemma initialize_idempotent_witness :
  exists result,
    handle_request repr_stub (mk_request "2.0" "initialize" JNone (JInt 1))
      (module_init _EPOCH) =
      (Return (create_success_response result (JInt 1)),
       logged INFO "Handling MCP request: initialize" (module_init _EPOCH))
    /\ handle_request repr_stub
         (mk_request "2.0" "initialize" (JDict [("x", JInt 0)]) (JStr "b"))
         (logged INFO "Handling MCP request: initialize" (module_init _EPOCH)) =
       (Return (create_success_response result (JStr "b")),
        logged INFO "Handling MCP request: initialize"
          (logged INFO "Handling MCP request: initialize" (module_init _EPOCH))).
Proof.
  destruct (initialize_idempotent repr_stub
              (mk_request "2.0" "initialize" JNone (JInt 1))
              (mk_request "2.0" "initialize" (JDict [("x", JInt 0)]) (JStr "b"))
              (module_init _EPOCH)
              (logged INFO "Handling MCP request: initialize" (module_init _EPOCH))
              eq_refl eq_refl)
    as (result & _ & _ & Ha & Hb & _).
  exists result. split; [exact Ha | exact Hb].
Defined.

(** C6: the result of [tools/list] is an object [{"tools": [...]}] whose
    list holds a descriptor named ["echo"]; the descriptor's [inputSchema]
    declares a property ["message"] of type ["string"] and lists
    ["message"] as required. *)
Theorem tools_list_has_echo
    (builtin_repr : json -> string) (request : JsonRpcRequest) (st : state) :
  method request = "tools/list" ->
  exists tools tool schema properties property required st',
    handle_request builtin_repr request st =
      (Return (create_success_response (JDict [("tools", JList tools)])
                 (id request)), st')
    /\ In (JDict tool) tools
    /\ dict_get "name" tool = Some (JStr "echo")
    /\ dict_get "inputSchema" tool = Some (JDict schema)
    /\ dict_get "properties" schema = Some (JDict properties)
    /\ dict_get "message" properties = Some (JDict property)
    /\ dict_get "type" property = Some (JStr "string")
    /\ dict_get "required" schema = Some (JList required)
    /\ In (JStr "message") required.
Proof.
  intros Hm. do 6 eexists. eexists. split.
  - rewrite (handle_request_known builtin_repr request handle_tools_list);
      [reflexivity | rewrite Hm; reflexivity].
  - split; [left; reflexivity|]. repeat (split; [reflexivity|]).
    left; reflexivity.
Qed.

Lemma tools_list_has_echo_witness :
  exists tools st',
    handle_request repr_stub (mk_request "2.0" "tools/list" JNone (JInt 2))
      (module_init _EPOCH) =
      (Return (create_success_response (JDict [("tools", JList tools)])
                 (JInt 2)), st').
Proof.
  destruct (tools_list_has_echo repr_stub
              (mk_request "2.0" "tools/list" JNone (JInt 2))
              (module_init _EPOCH) eq_refl)
    as (tools & _ & _ & _ & _ & _ & st' & H & _).
  exists tools, st'. exact H.
Defined.

(** ** Calling tools *)

Section ToolsCall.

Variable builtin_repr : json -> string.

Lemma method_handler_tools_call (request : JsonRpcRequest) :
  method request = "tools/call" ->
  method_handler builtin_repr (method request)
  = Some (handle_tools_call builtin_repr).
Proof. intros ->. reflexivity. Qed.

(** Parameters that are falsy or not an object are turned down before
    anything is read from them. *)
Lemma handle_tools_call_bad_params (p : json) (st : state) :
  truthy p = false \/ is_dict p = false ->
  handle_tools_call builtin_repr p st =
  (Return (JDict [("error", JStr "Invalid parameters for tools/call")]),
   logged INFO "Handling 'tools/call' method" st).
Proof.
  intros H. unfold handle_tools_call. run_monad.
  replace (negb (truthy p) || negb (is_dict p)) with true; [reflexivity|].
  destruct H as [-> | ->]; [reflexivity | apply eq_sym, orb_true_r].
Qed.

(** A non-empty object: the name and the arguments are read, the name is
    tested, the registry is asked, and the handler found is called. *)
Lemma handle_tools_call_dict (d : list (string * json)) (st : state) :
  d <> [] ->
  handle_tools_call builtin_repr (JDict d) st =
  let st1 := logged INFO "Handling 'tools/call' method" st in
  let tool_name := dict_get_default "name" JNone d in
  let arguments := dict_get_default "arguments" (JDict []) d in
  if truthy tool_name then
    match registry_get tool_name st1 with
    | (Return None, st2) =>
        (Return (JDict [("error",
                         JStr ("Unknown tool: "
                               +:+ format_value builtin_repr tool_name))]), st2)
    | (Return (Some h), st2) => call h arguments st2
    | (Raise e, st2) => (Raise e, st2)
    end
  else (Return (JDict [("error", JStr "Tool name is required")]), st1).
Proof.
  intros Hd. unfold handle_tools_call, py_get. run_monad.
  destruct d as [|item d]; [congruence|]. cbn [truthy is_dict negb orb].
  fold (logged INFO "Handling 'tools/call' method" st).
  destruct (truthy (dict_get_default "name" JNone (item :: d))); cbn [negb].
  - destruct (registry_get _ _) as [[[h|]|e] st2]; reflexivity.
  - reflexivity.
Qed.

Lemma dict_get_nonempty (key : string) (d : list (string * json)) (v : json) :
  dict_get key d = Some v -> d <> [].
Proof. destruct d; [discriminate | congruence]. Qed.

End ToolsCall.

(** C10: a [tools/call] whose parameters map ["name"] to the empty string
    is answered with the failure "Tool name is required", whatever the
    registry holds, also when some handler is registered under the empty
    name: the key being present is not enough, its value must be truthy. *)
Theorem empty_tool_name_required
    (builtin_repr : json -> string) (request : JsonRpcRequest)
    (d : list (string * json)) (st : state) :
  method request = "tools/call" ->
  params request = JDict d ->
  dict_get "name" d = Some (JStr "") ->
  handle_request builtin_repr request st =
  (Return (create_success_response
             (JDict [("error", JStr "Tool name is required")]) (id request)),
   logged INFO "Handling 'tools/call' method"
     (logged INFO "Handling MCP request: tools/call" st)).
Proof.
  intros Hm Hp Hname.
  rewrite (handle_request_known _ _ _ (method_handler_tools_call _ _ Hm)).
  rewrite Hp, Hm, handle_tools_call_dict by (eapply dict_get_nonempty; eauto).
  cbv zeta. unfold dict_get_default at 1. rewrite Hname. reflexivity.
Qed.

Lemma empty_tool_name_required_witness :
  TOOL_HANDLERS state_with_unnamed_tool !! "" = Some fn_tool_echo
  /\ handle_request repr_stub
       (mk_request "2.0" "tools/call"
          (JDict [("name", JStr ""); ("arguments", JDict [])]) (JInt 5))
       state_with_unnamed_tool =
     (Return (create_success_response
                (JDict [("error", JStr "Tool name is required")]) (JInt 5)),
      logged INFO "Handling 'tools/call' method"
        (logged INFO "Handling MCP request: tools/call"
           state_with_unnamed_tool)).
Proof.
  split.
  - apply lookup_insert_eq.
  - apply (empty_tool_name_required repr_stub
             (mk_request "2.0" "tools/call"
                (JDict [("name", JStr ""); ("arguments", JDict [])]) (JInt 5))
             [("name", JStr ""); ("arguments", JDict [])]
             state_with_unnamed_tool);
      reflexivity.
Defined.

(** C5: a [tools/call] of the registered tool ["echo"] succeeds with the
    result [{"content": [{"type": "text", "text": m}]}], where [m] is the
    string message of the arguments; when the arguments are absent they
    default to the empty mapping, and when the message is absent the text
    is the empty string. *)
Theorem echo_returns_message
    (builtin_repr : json -> string) (request : JsonRpcRequest)
    (d : list (string * json)) (text : json) (st : state) :
  method request = "tools/call" ->
  params request = JDict d ->
  dict_get "name" d = Some (JStr "echo") ->
  TOOL_HANDLERS st !! "echo" = Some fn_tool_echo ->
  echo_text d text ->
  handle_request builtin_repr request st =
  (Return (create_success_response
             (JDict [("content", JList [JDict [("type", JStr "text");
                                               ("text", text)]])])
             (id request)),
   logged INFO "Handling 'tools/call' method"
     (logged INFO "Handling MCP request: tools/call" st)).
Proof.
  intros Hm Hp Hname Hreg Htext.
  rewrite (handle_request_known _ _ _ (method_handler_tools_call _ _ Hm)).
  rewrite Hp, Hm, handle_tools_call_dict by (eapply dict_get_nonempty; eauto).
  cbv zeta. unfold dict_get_default at 1 2. rewrite Hname.
  cbn [truthy String.eqb Ascii.eqb Bool.eqb negb registry_get logged
       TOOL_HANDLERS].
  rewrite Hreg. cbn [call]. unfold tool_echo, py_get, dict_get_default.
  destruct Htext as [arguments m Hargs Hmsg | Hargs | arguments Hargs Hmsg];
    rewrite Hargs; run_monad; try rewrite Hmsg; reflexivity.
Qed.

Lemma echo_returns_message_witness :
  handle_request repr_stub
    (mk_request "2.0" "tools/call"
       (JDict [("name", JStr "echo");
               ("arguments", JDict [("message", JStr "hi")])]) (JInt 9))
    (module_init _EPOCH) =
  (Return (create_success_response
             (JDict [("content", JList [JDict [("type", JStr "text");
                                               ("text", JStr "hi")]])])
             (JInt 9)),
   logged INFO "Handling 'tools/call' method"
     (logged INFO "Handling MCP request: tools/call" (module_init _EPOCH))).
Proof.
  apply (echo_returns_message repr_stub
           (mk_request "2.0" "tools/call"
              (JDict [("name", JStr "echo");
                      ("arguments", JDict [("message", JStr "hi")])]) (JInt 9))
           [("name", JStr "echo");
            ("arguments", JDict [("message", JStr "hi")])]).
  - reflexivity.
  - reflexivity.
  - reflexivity.
  - apply lookup_insert_eq.
  - apply (echo_message _ [("message", JStr "hi")] "hi"); reflexivity.
Defined.




(** ** Floats of the clock: the quotient by [10**6] is finite *)

Lemma digits2_pos_bound (p : positive) (k : Z) :
  0 <= k -> Z.pos p < 2 ^ k -> Z.pos (digits2_pos p) <= k.
Proof.
  revert k. induction p as [p IH|p IH|]; intros k Hk Hlt; cbn [digits2_pos].
  - assert (k <> 0) by (intros ->; simpl in Hlt; lia).
    replace k with (Z.succ (k - 1)) in Hlt by lia.
    rewrite Z.pow_succ_r in Hlt by lia.
    specialize (IH (k - 1)). lia.
  - assert (k <> 0) by (intros ->; simpl in Hlt; lia).
    replace k with (Z.succ (k - 1)) in Hlt by lia.
    rewrite Z.pow_succ_r in Hlt by lia.
    specialize (IH (k - 1)). lia.
  - assert (k <> 0) by (intros ->; simpl in Hlt; lia). lia.
Qed.

Lemma Zdigits2_bound (m k : Z) :
  0 <= k -> 0 <= m < 2 ^ k -> 0 <= Zdigits2 m <= k.
Proof.
  intros Hk [Hm Hlt]. destruct m as [|p|p]; cbn [Zdigits2]; try lia.
  split; [lia | now apply digits2_pos_bound].
Qed.

Lemma shr_1_bound (mrs : shr_record) :
  0 <= shr_m mrs -> 0 <= shr_m (shr_1 mrs) <= shr_m mrs.
Proof.
  destruct mrs as [m r s]. cbn [shr_m]. intros Hm.
  destruct m as [|[p|p|]|p]; cbn [shr_1 shr_m]; lia.
Qed.

Lemma iter_shr_1_bound (p : positive) (mrs : shr_record) :
  0 <= shr_m mrs -> 0 <= shr_m (SpecFloat.iter_pos shr_1 p mrs) <= shr_m mrs.
Proof.
  revert mrs. induction p as [p IH|p IH|]; intros mrs Hm; cbn [SpecFloat.iter_pos].
  - pose proof (shr_1_bound mrs Hm) as H1.
    pose proof (IH (shr_1 mrs) ltac:(lia)) as H2.
    pose proof (IH (SpecFloat.iter_pos shr_1 p (shr_1 mrs)) ltac:(lia)). lia.
  - pose proof (IH mrs Hm) as H2.
    pose proof (IH (SpecFloat.iter_pos shr_1 p mrs) ltac:(lia)). lia.
  - now apply shr_1_bound.
Qed.

Lemma shr_fexp_bound (m e : Z) (l : location) (k : Z) :
  0 <= k -> 0 <= m < 2 ^ k ->
  let '(mrs, e') := shr_fexp prec emax m e l in
  0 <= shr_m mrs <= m /\ e' <= Z.max e (Z.max (k + e - 53) (-1074)).
Proof.
  intros Hk Hm. unfold shr_fexp, shr.
  pose proof (Zdigits2_bound m k Hk Hm) as Hd.
  assert (Hrec : shr_m (shr_record_of_loc m l) = m).
  { destruct l as [|[]]; reflexivity. }
  unfold fexp, emin, prec, emax. destruct Hm as [Hm _].
  destruct (Z.max (Zdigits2 m + e - 53) (3 - 1024 - 53) - e) as [|p|p] eqn:En.
  - cbv beta iota. rewrite Hrec. lia.
  - cbv beta iota.
    pose proof (iter_shr_1_bound p (shr_record_of_loc m l)) as H.
    rewrite Hrec in H. split; [apply H; lia | lia].
  - cbv beta iota. rewrite Hrec. lia.
Qed.

Lemma round_nearest_even_bound (m : Z) (l : location) :
  m <= round_nearest_even m l <= m + 1.
Proof. destruct l as [|[]]; cbn [round_nearest_even]; try destruct (Z.even m); lia. Qed.

Lemma binary_round_aux_finite (s : bool) (m e : Z) (l : location) :
  0 <= m < 2 ^ 200 -> -2000 <= e <= 0 ->
  binary_round_aux prec emax s m e l = S754_zero s
  \/ exists m' e', binary_round_aux prec emax s m e l = S754_finite s m' e'.
Proof.
  intros Hm He. unfold binary_round_aux.
  pose proof (shr_fexp_bound m e l 200 ltac:(lia) Hm) as H1.
  destruct (shr_fexp prec emax m e l) as [mrs1 e1]. destruct H1 as [H1 H1e].
  pose proof (round_nearest_even_bound (shr_m mrs1) (loc_of_shr_record mrs1)) as Hr.
  set (m2 := round_nearest_even (shr_m mrs1) (loc_of_shr_record mrs1)) in *.
  assert (Hm2 : 0 <= m2 < 2 ^ 201).
  { change (2 ^ 201) with (2 * 2 ^ 200). lia. }
  pose proof (shr_fexp_bound m2 e1 loc_Exact 201 ltac:(lia) Hm2) as H2.
  destruct (shr_fexp prec emax m2 e1 loc_Exact) as [mrs2 e2].
  destruct H2 as [H2 H2e].
  destruct (shr_m mrs2) as [|p|p] eqn:Ep.
  - now left.
  - right. unfold prec, emax.
    replace (e2 <=? 1024 - 53) with true by (symmetry; apply Z.leb_le; lia).
    eauto.
  - lia.
Qed.

Lemma shifted_bound (m : positive) (sh : Z) :
  Z.pos m < 2 ^ 62 -> 0 <= sh <= 72 ->
  0 <= match sh with
       | 0 => Z.pos m
       | Z.pos _ => Z.shiftl (Z.pos m) sh
       | Z.neg _ => 0
       end < 2 ^ 134.
Proof.
  intros Hm Hsh.
  assert (H134 : 2 ^ 62 < 2 ^ 134) by reflexivity.
  destruct sh as [|p|p] eqn:Es; try lia.
  rewrite <- Es in *. rewrite Z.shiftl_mul_pow2 by lia.
  assert (Hle : 2 ^ sh <= 2 ^ 72) by (apply Z.pow_le_mono_r; lia).
  assert (Hpos : 0 < 2 ^ sh) by (apply Z.pow_pos_nonneg; lia).
  change (2 ^ 134) with (2 ^ 62 * 2 ^ 72). nia.
Qed.

Lemma SFdiv_core_micro_bound (m : positive) :
  Z.pos m < 2 ^ 62 ->
  let '(q, e', _) := SFdiv_core_binary prec emax (Z.pos m) 0 1000000 0 in
  0 <= q < 2 ^ 200 /\ -2000 <= e' <= 0.
Proof.
  intros Hm. unfold SFdiv_core_binary. cbv zeta.
  pose proof (Zdigits2_bound (Z.pos m) 62 ltac:(lia) ltac:(lia)) as Hd.
  assert (Hd1 : 1 <= Zdigits2 (Z.pos m)) by (cbn [Zdigits2]; lia).
  change (Zdigits2 1000000) with 20.
  unfold fexp, emin, prec, emax.
  set (e0 := Z.min _ (0 - 0)).
  assert (He0 : -72 <= e0 <= 0) by (subst e0; lia).
  pose proof (shifted_bound m (0 - 0 - e0) Hm ltac:(lia)) as Hm0.
  set (m0 := match 0 - 0 - e0 with 0 => _ | Z.pos _ => _ | Z.neg _ => _ end) in *.
  pose proof (Z.div_eucl_eq m0 1000000 ltac:(lia)) as Hdiv.
  pose proof (Z.mod_pos_bound m0 1000000 ltac:(lia)) as Hmod.
  unfold Z.modulo in Hmod.
  destruct (Z.div_eucl m0 1000000) as [q0 r0].
  assert (H200 : 2 ^ 134 < 2 ^ 200) by reflexivity.
  split; [split|]; lia.
Qed.

Lemma SFdiv_micro_finite (s : bool) (m : positive) :
  Z.pos m < 2 ^ 62 ->
  let r := SFdiv prec emax (S754_finite s m 0) (S754_finite false 1000000 0) in
  r = S754_zero s \/ exists m' e', r = S754_finite s m' e'.
Proof.
  intros Hm r. subst r. cbn [SFdiv].
  pose proof (SFdiv_core_micro_bound m Hm) as Hcore.
  destruct (SFdiv_core_binary prec emax (Z.pos m) 0 1000000 0) as [[q e'] l].
  replace (xorb s false) with s by (destruct s; reflexivity).
  apply binary_round_aux_finite; tauto.
Qed.

Lemma int_truediv_micro_finite (a : Z) :
  - 2 ^ 62 < a < 2 ^ 62 ->
  int_truediv a 1000000 = S754_zero (a <? 0)
  \/ exists m e, int_truediv a 1000000 = S754_finite (a <? 0) m e.
Proof.
  intros Ha. destruct a as [|m|m]; cbn [int_truediv].
  - left; reflexivity.
  - apply (SFdiv_micro_finite false m). lia.
  - apply (SFdiv_micro_finite true m). lia.
Qed.

(** ** The clock's microsecond count *)

Lemma _DAYS_BEFORE_MONTH_bound (m : Z) :
  1 <= m <= 12 -> 0 <= _DAYS_BEFORE_MONTH m <= 334.
Proof.
  intros Hm.
  assert (H : m = 1 \/ m = 2 \/ m = 3 \/ m = 4 \/ m = 5 \/ m = 6 \/ m = 7
              \/ m = 8 \/ m = 9 \/ m = 10 \/ m = 11 \/ m = 12) by lia.
  repeat (destruct H as [-> | H]; [cbn; lia|]). subst m. cbn. lia.
Qed.

Lemma _days_before_month_bound (y m : Z) :
  1 <= m <= 12 -> 0 <= _days_before_month y m <= 335.
Proof.
  intros Hm. unfold _days_before_month.
  pose proof (_DAYS_BEFORE_MONTH_bound m Hm).
  destruct (_ && _); lia.
Qed.

Lemma _days_before_year_bound (y : Z) :
  1 <= y <= 9999 -> 0 <= _days_before_year y <= 3651695.
Proof.
  intros Hy. unfold _days_before_year. cbv zeta.
  Z.to_euclidean_division_equations. lia.
Qed.

Lemma _days_before_year_epoch (y : Z) :
  1970 <= y -> 719162 <= _days_before_year y.
Proof.
  intros Hy. unfold _days_before_year. cbv zeta.
  Z.to_euclidean_division_equations. lia.
Qed.

Lemma toordinal_EPOCH : toordinal _EPOCH = 719163.
Proof. reflexivity. Qed.

Lemma microseconds_since_epoch_bound (t : datetime) :
  valid_datetime t ->
  - 2 ^ 62 < microseconds_since_epoch t < 2 ^ 62.
Proof.
  intros (Hy & Hm & Hd & Hh & Hmin & Hs & Hus).
  unfold microseconds_since_epoch. rewrite toordinal_EPOCH.
  unfold toordinal, _ymd2ord.
  pose proof (_days_before_year_bound (year t) Hy).
  pose proof (_days_before_month_bound (year t) (month t) Hm).
  change (2 ^ 62) with 4611686018427387904. lia.
Qed.

Lemma microseconds_since_epoch_nonneg (t : datetime) :
  valid_datetime t -> 1970 <= year t ->
  0 <= microseconds_since_epoch t.
Proof.
  intros (Hy & Hm & Hd & Hh & Hmin & Hs & Hus) Hepoch.
  unfold microseconds_since_epoch. rewrite toordinal_EPOCH.
  unfold toordinal, _ymd2ord.
  pose proof (_days_before_year_epoch (year t) Hepoch).
  pose proof (_days_before_month_bound (year t) (month t) Hm).
  lia.
Qed.

(** ** Integers from floats *)

(** On a finite float [int] returns the value truncated toward zero. *)
Lemma py_int_finite (f : spec_float) :
  (exists s, f = S754_zero s) \/ (exists s m e, f = S754_finite s m e) ->
  exists q, float_value f = Some q
            /\ forall st, py_int f st = (Return (Qtrunc q), st).
Proof.
  intros [[s ->] | (s & m & e & ->)]; eexists; (split; [reflexivity|]);
    reflexivity.
Qed.

(** The value of a float without the sign bit is not negative, and there
    truncation and floor agree. *)
Lemma float_value_nonneg_floor (f : spec_float) (q : Q) :
  (exists s, f = S754_zero s)
  \/ (exists m e, f = S754_finite false m e) ->
  float_value f = Some q -> Qfloor q = Qtrunc q.
Proof.
  intros [[s ->] | (m & e & ->)]; cbn [float_value]; intros [= <-].
  - reflexivity.
  - unfold Qtrunc. destruct (0 <=? e) eqn:He.
    + cbn [inject_Z Qfloor Qnum Qden]. symmetry. apply Z.quot_div_nonneg.
      * apply Z.leb_le in He.
        assert (0 < 2 ^ e) by (apply Z.pow_pos_nonneg; lia). nia.
      * lia.
    + cbn [Qfloor Qnum Qden]. symmetry. apply Z.quot_div_nonneg; lia.
Qed.

(** ** The time method *)

(** What [int] does to the timestamp: for a [time] request handled at a
    valid datetime, the result's [timestamp] is the float of that reading
    and [unix_timestamp] is that same float truncated toward zero; when
    the reading is not before 1970 this is the floor of the float. *)
Theorem time_unix_timestamp_truncates
    (builtin_repr : json -> string) (request : JsonRpcRequest) (st : state) :
  method request = "time" ->
  valid_datetime (clock st) ->
  exists result server_time ts n q,
    handle_request builtin_repr request st =
      (Return (create_success_response result (id request)),
       logged INFO "Handling MCP request: time" st)
    /\ json_field "server_time" result = Some server_time
    /\ json_field "timestamp" server_time = Some (JFloat ts)
    /\ json_field "unix_timestamp" server_time = Some (JInt n)
    /\ ts = timestamp (clock st)
    /\ float_value ts = Some q
    /\ n = Qtrunc q
    /\ (1970 <= year (clock st) -> float_floor ts = Some n).
Proof.
  intros Hm Hvalid.
  pose proof (microseconds_since_epoch_bound _ Hvalid) as Hus.
  pose proof (int_truediv_micro_finite _ Hus) as Hfin.
  fold (timestamp (clock st)) in Hfin.
  assert (Hshape : (exists s, timestamp (clock st) = S754_zero s)
                   \/ (exists s m e, timestamp (clock st) = S754_finite s m e)).
  { destruct Hfin as [H | (m & e & H)]; [left | right]; eauto. }
  destruct (py_int_finite _ Hshape) as (q & Hq & Hint).
  eexists. eexists. exists (timestamp (clock st)), (Qtrunc q), q.
  split.
  { rewrite (handle_request_known builtin_repr request handle_time)
      by (rewrite Hm; reflexivity).
    rewrite Hm. unfold handle_time. run_monad.
    cbn [clock logged]. rewrite Hint. reflexivity. }
  do 4 (split; [reflexivity|]). split; [exact Hq|]. split; [reflexivity|].
  { intros Hepoch. unfold float_floor. rewrite Hq. cbn [fmap option_fmap option_map].
    f_equal. apply (float_value_nonneg_floor (timestamp (clock st))); [|exact Hq].
    pose proof (microseconds_since_epoch_nonneg _ Hvalid Hepoch) as Hnn.
    apply Z.ltb_ge in Hnn. unfold timestamp in Hfin. rewrite Hnn in Hfin.
    destruct Hfin as [H | (m & e & H)]; [left | right]; eauto. }
Qed.

Lemma time_unix_timestamp_truncates_witness :
  exists result server_time ts n q,
    handle_request repr_stub (mk_request "2.0" "time" JNone (JInt 6))
      (module_init (mk_datetime 2026 11 4 12 30 15 250000)) =
      (Return (create_success_response result (JInt 6)),
       logged INFO "Handling MCP request: time"
         (module_init (mk_datetime 2026 11 4 12 30 15 250000)))
    /\ json_field "server_time" result = Some server_time
    /\ json_field "timestamp" server_time = Some (JFloat ts)
    /\ json_field "unix_timestamp" server_time = Some (JInt n)
    /\ ts = timestamp (mk_datetime 2026 11 4 12 30 15 250000)
    /\ float_value ts = Some q
    /\ n = Qtrunc q
    /\ (1970 <= 2026 -> float_floor ts = Some n).
Proof.
  apply (time_unix_timestamp_truncates repr_stub
           (mk_request "2.0" "time" JNone (JInt 6))
           (module_init (mk_datetime 2026 11 4 12 30 15 250000))).
  - reflexivity.
  - unfold valid_datetime. simpl. lia.
Defined.

(** C8: for every request with method [time], handled at a reading of the
    wall clock, the integer [unix_timestamp] of the result is the floor of
    its floating-point [timestamp], and both come from the same reading:
    [timestamp] is the float of the clock reading of the state. *)
Theorem time_unix_timestamp_is_floor
    (builtin_repr : json -> string) (request : JsonRpcRequest) (st : state) :
  method request = "time" ->
  wall_clock_reading (clock st) ->
  exists result server_time ts n,
    handle_request builtin_repr request st =
      (Return (create_success_response result (id request)),
       logged INFO "Handling MCP request: time" st)
    /\ json_field "server_time" result = Some server_time
    /\ json_field "timestamp" server_time = Some (JFloat ts)
    /\ json_field "unix_timestamp" server_time = Some (JInt n)
    /\ ts = timestamp (clock st)
    /\ float_floor ts = Some n.
Proof.
  intros Hm [Hvalid Hepoch].
  destruct (time_unix_timestamp_truncates builtin_repr request st Hm Hvalid)
    as (result & server_time & ts & n & q
        & Hrun & Hserver & Hts & Hn & Heq & _ & _ & Hfloor).
  exists result, server_time, ts, n.
  split; [exact Hrun|]. split; [exact Hserver|]. split; [exact Hts|].
  split; [exact Hn|]. split; [exact Heq|]. exact (Hfloor Hepoch).
Qed.

Lemma time_unix_timestamp_is_floor_witness :
  wall_clock_reading (mk_datetime 2026 11 4 12 30 15 250000)
  /\ exists result server_time ts n,
       handle_request repr_stub (mk_request "2.0" "time" JNone (JInt 6))
         (module_init (mk_datetime 2026 11 4 12 30 15 250000)) =
         (Return (create_success_response result (JInt 6)),
          logged INFO "Handling MCP request: time"
            (module_init (mk_datetime 2026 11 4 12 30 15 250000)))
       /\ json_field "server_time" result = Some server_time
       /\ json_field "timestamp" server_time = Some (JFloat ts)
       /\ json_field "unix_timestamp" server_time = Some (JInt n)
       /\ ts = timestamp (mk_datetime 2026 11 4 12 30 15 250000)
       /\ float_floor ts = Some n.
Proof.
  assert (Hclock : wall_clock_reading (mk_datetime 2026 11 4 12 30 15 250000)).
  { unfold wall_clock_reading, valid_datetime. simpl. lia. }
  split; [exact Hclock|].
  apply (time_unix_timestamp_is_floor repr_stub
           (mk_request "2.0" "time" JNone (JInt 6))
           (module_init (mk_datetime 2026 11 4 12 30 15 250000)));
    [reflexivity | exact Hclock].
Defined.

(** The bound on the clock matters in the model only: at the datetime
    1969-12-31T23:59:59.5, which no wall clock reads, the float timestamp
    is [-0.5], whose floor is [-1], while truncation gives [0]. *)
Lemma time_before_epoch_is_not_floor :
  valid_datetime (mk_datetime 1969 12 31 23 59 59 500000)
  /\ handle_request repr_stub (mk_request "2.0" "time" JNone (JInt 1))
       (module_init (mk_datetime 1969 12 31 23 59 59 500000))
     = (Return (create_success_response
          (JDict [
             ("method", JStr "time");
             ("server_time", JDict [
                ("iso_format", JStr "1969-12-31T23:59:59.500000+00:00");
                ("timestamp", JFloat (S754_finite true 4503599627370496 (-53)));
                ("unix_timestamp", JInt 0);
                ("formatted", JStr "1969-12-31 23:59:59 UTC");
                ("timezone", JStr "UTC")]);
             ("message", JStr "Time retrieved successfully")])
          (JInt 1)),
        logged INFO "Handling MCP request: time"
          (module_init (mk_datetime 1969 12 31 23 59 59 500000)))
  /\ (exists q, float_value (S754_finite true 4503599627370496 (-53)) = Some q
                /\ (q == - (1 # 2))%Q)
  /\ float_floor (S754_finite true 4503599627370496 (-53)) = Some (-1)
  /\ float_floor (S754_finite true 4503599627370496 (-53)) <> Some 0.
Proof.
  split; [unfold valid_datetime; simpl; lia|].
  split; [vm_compute; reflexivity|].
  split; [|split; [vm_compute; reflexivity | vm_compute; discriminate]].
  eexists. split; [reflexivity|]. vm_compute. reflexivity.
Qed.

(** * Further properties of the dispatcher *)

(** ** The kinds of error envelope *)

Lemma method_handler_cases (builtin_repr : json -> string) (m : string)
    (h : json -> M json) :
  method_handler builtin_repr m = Some h ->
  (m = "initialize" /\ h = handle_initialize)
  \/ (m = "notifications/initialized" /\ h = handle_notifications_initialized)
  \/ (m = "time" /\ h = handle_time)
  \/ (m = "tools/list" /\ h = handle_tools_list)
  \/ (m = "tools/call" /\ h = handle_tools_call builtin_repr).
Proof.
  unfold method_handler.
  repeat match goal with
         | |- (if String.eqb ?a ?b then _ else _) = _ -> _ =>
             destruct (String.eqb_spec a b)
         end; intros [= <-]; tauto.
Qed.

(** At a valid clock reading the time handler returns, with the reading's
    float truncated toward zero, and leaves the state as it was. *)
Lemma handle_time_valid (p : json) (st : state) :
  valid_datetime (clock st) ->
  exists q,
    float_value (timestamp (clock st)) = Some q
    /\ ((microseconds_since_epoch (clock st) <? 0) = false -> (0 <= Qnum q)%Z)
    /\ ((microseconds_since_epoch (clock st) <? 0) = true -> (Qnum q <= 0)%Z)
    /\ handle_time p st =
       (Return (JDict [
          ("method", JStr "time");
          ("server_time", JDict [
             ("iso_format", JStr (isoformat (clock st)));
             ("timestamp", JFloat (timestamp (clock st)));
             ("unix_timestamp", JInt (Qtrunc q));
             ("formatted", JStr (strftime_utc (clock st)));
             ("timezone", JStr "UTC")]);
          ("message", JStr "Time retrieved successfully")]), st).
Proof.
  intros Hvalid.
  pose proof (microseconds_since_epoch_bound _ Hvalid) as Hus.
  pose proof (int_truediv_micro_finite _ Hus) as Hfin.
  fold (timestamp (clock st)) in Hfin.
  assert (Hsign : exists q, float_value (timestamp (clock st)) = Some q
            /\ ((microseconds_since_epoch (clock st) <? 0) = false -> 0 <= Qnum q)
            /\ ((microseconds_since_epoch (clock st) <? 0) = true -> Qnum q <= 0)).
  { destruct Hfin as [-> | (m & e & ->)]; cbn [float_value].
    - eexists. split; [reflexivity|]. cbn. lia.
    - eexists. split; [reflexivity|].
      destruct (microseconds_since_epoch (clock st) <? 0);
        (split; intros [=]); destruct (0 <=? e) eqn:He;
        cbn [Qnum inject_Z]; try lia.
      all: apply Z.leb_le in He;
        assert (0 < 2 ^ e) by (apply Z.pow_pos_nonneg; lia); nia. }
  destruct Hsign as (q & Hq & Hpos & Hneg). exists q.
  split; [exact Hq|]. split; [exact Hpos|]. split; [exact Hneg|].
  unfold handle_time, py_int. run_monad. rewrite Hq. reflexivity.
Qed.

(** X1: at a valid clock reading, an error envelope from the dispatcher
    carries no data and is of one of two kinds: [METHOD_NOT_FOUND], for a
    method outside the routing chain, or [INTERNAL_ERROR], which only
    [tools/call] can produce. *)
Theorem error_envelope_kinds
    (builtin_repr : json -> string) (request : JsonRpcRequest) (st st' : state)
    (v : string) (e : JsonRpcError) (i : json) :
  valid_datetime (clock st) ->
  handle_request builtin_repr request st
    = (Return (JsonRpcErrorResponse v e i), st') ->
  data e = JNone
  /\ ((code e = "METHOD_NOT_FOUND"
       /\ method_handler builtin_repr (method request) = None)
      \/ (code e = "INTERNAL_ERROR" /\ method request = "tools/call")).
Proof.
  intros Hvalid Hrun.
  destruct (method_handler builtin_repr (method request)) as [h|] eqn:Hsel.
  - rewrite (handle_request_known _ _ _ Hsel) in Hrun.
    destruct (method_handler_cases _ _ _ Hsel)
      as [[Hm ->] | [[Hm ->] | [[Hm ->] | [[Hm ->] | [Hm ->]]]]].
    + discriminate Hrun.
    + discriminate Hrun.
    + destruct (handle_time_valid (params request)
                  (logged INFO ("Handling MCP request: " +:+ method request) st)
                  Hvalid) as (q & _ & _ & _ & Ht).
      rewrite Ht in Hrun. discriminate Hrun.
    + discriminate Hrun.
    + destruct (handle_tools_call _ _ _) as [[result|err] st1];
        [discriminate Hrun|].
      injection Hrun as <- <- <- <-. split; [reflexivity|]. right. now split.
  - rewrite (handle_request_unknown _ _ Hsel) in Hrun.
    injection Hrun as <- <- <- <-. split; [reflexivity|]. left. now split.
Qed.

Lemma error_envelope_kinds_witness :
  data (mk_error "INTERNAL_ERROR" "Internal error: unhashable type: 'list'" JNone)
    = JNone
  /\ ((code (mk_error "INTERNAL_ERROR"
               "Internal error: unhashable type: 'list'" JNone)
         = "METHOD_NOT_FOUND"
       /\ method_handler repr_stub "tools/call" = None)
      \/ (code (mk_error "INTERNAL_ERROR"
                  "Internal error: unhashable type: 'list'" JNone)
            = "INTERNAL_ERROR"
          /\ "tools/call" = "tools/call")).
Proof.
  apply (error_envelope_kinds repr_stub
           (mk_request "2.0" "tools/call" (JDict [("name", JList [JInt 1])])
              (JInt 1))
           (module_init _EPOCH)
           (logged ERROR
              "Error handling MCP request tools/call: unhashable type: 'list'"
              (logged INFO "Handling 'tools/call' method"
                 (logged INFO "Handling MCP request: tools/call"
                    (module_init _EPOCH))))
           "2.0" _ (JInt 1)).
  - unfold valid_datetime. simpl. lia.
  - vm_compute. reflexivity.
Defined.

(** ** The log only grows *)

Section LogFrame.

Context {A B : Type}.

Lemma extends_ret (a : A) : extends_log (mret a).
Proof. intros st. split; [reflexivity|]. exists []. symmetry. apply app_nil_r. Qed.

Lemma extends_raise (e : exn) : extends_log (@raise A e).
Proof. intros st. split; [reflexivity|]. exists []. symmetry. apply app_nil_r. Qed.

Lemma extends_bind (m : M A) (k : A -> M B) :
  extends_log m -> (forall a, extends_log (k a)) -> extends_log (m ≫= k).
Proof.
  intros Hm Hk st. unfold mbind, M_bind.
  destruct (Hm st) as [Hc [l Hl]]. destruct (m st) as [[a|e] st']; simpl in *.
  - destruct (Hk a st') as [Hc' [l' Hl']]. split; [congruence|].
    exists (l ++ l')%list. rewrite Hl', Hl. symmetry. apply app_assoc.
  - split; [exact Hc|]. exists l. exact Hl.
Qed.

Lemma extends_try_except (body : M A) (handler : exn -> M A) :
  extends_log body -> (forall e, extends_log (handler e)) ->
  extends_log (try_except body handler).
Proof.
  intros Hb Hh st. unfold try_except.
  destruct (Hb st) as [Hc [l Hl]]. destruct (body st) as [[a|e] st']; simpl in *.
  - split; [exact Hc|]. exists l. exact Hl.
  - destruct (Hh e st') as [Hc' [l' Hl']]. split; [congruence|].
    exists (l ++ l')%list. rewrite Hl', Hl. symmetry. apply app_assoc.
Qed.

End LogFrame.

Lemma extends_logger_info (msg : string) : extends_log (logger_info msg).
Proof. intros st. split; [reflexivity|]. eexists. reflexivity. Qed.

Lemma extends_logger_error (msg : string) : extends_log (logger_error msg).
Proof. intros st. split; [reflexivity|]. eexists. reflexivity. Qed.

Lemma extends_datetime_now_utc : extends_log datetime_now_utc.
Proof. intros st. split; [reflexivity|]. exists []. symmetry. apply app_nil_r. Qed.

Lemma extends_py_int (f : spec_float) : extends_log (py_int f).
Proof.
  unfold py_int. destruct (float_value f); [apply extends_ret|].
  destruct f; apply extends_raise.
Qed.

Lemma extends_py_get (v : json) (key : string) (default : json) :
  extends_log (py_get v key default).
Proof. destruct v; first [apply extends_ret | apply extends_raise]. Qed.

Lemma extends_registry_get (key : json) : extends_log (registry_get key).
Proof.
  destruct key; try apply extends_ret; try apply extends_raise.
  intros st. split; [reflexivity|]. exists []. symmetry. apply app_nil_r.
Qed.

Create HintDb logs.
#[local] Hint Resolve extends_ret extends_raise extends_logger_info
  extends_logger_error extends_datetime_now_utc extends_py_int
  extends_py_get extends_registry_get : logs.

Ltac logs :=
  repeat first
    [ solve [ auto with logs ]
    | apply extends_bind; [ | intros ? ]
    | apply extends_try_except; [ | intros ? ]
    | match goal with
      | |- extends_log (if ?b then _ else _) => destruct b
      | |- extends_log (match ?o with Some _ => _ | None => _ end) =>
          destruct o
      | |- extends_log (call ?f _) => destruct f; unfold call, tool_echo
      end ].

Lemma extends_handler (builtin_repr : json -> string) (m : string)
    (h : json -> M json) (p : json) :
  method_handler builtin_repr m = Some h -> extends_log (h p).
Proof.
  intros Hsel.
  destruct (method_handler_cases _ _ _ Hsel)
    as [[_ ->] | [[_ ->] | [[_ ->] | [[_ ->] | [_ ->]]]]].
  - unfold handle_initialize. logs.
  - unfold handle_notifications_initialized. logs.
  - unfold handle_time. logs.
  - unfold handle_tools_list. logs.
  - unfold handle_tools_call. logs.
Qed.

(** X2: whatever the request, the dispatcher never rewrites or drops a
    log record and never touches the clock: the log after the dispatch is
    the log before it, then the record "Handling MCP request: <method>",
    then whatever the handler and the [except] clause logged. *)
Theorem dispatch_appends_log
    (builtin_repr : json -> string) (request : JsonRpcRequest) (st : state) :
  let st' := snd (handle_request builtin_repr request st) in
  clock st' = clock st
  /\ exists records,
       log st' =
       (log st ++ (INFO, "Handling MCP request: " +:+ method request)
               :: records)%list.
Proof.
  cbv zeta.
  destruct (method_handler builtin_repr (method request)) as [h|] eqn:Hsel.
  - rewrite (handle_request_known _ _ _ Hsel).
    destruct (extends_handler _ _ _ (params request) Hsel
                (logged INFO ("Handling MCP request: " +:+ method request) st))
      as [Hc [l Hl]].
    destruct (h (params request) _) as [[result|e] st1]; cbn [snd] in *.
    + split; [exact Hc|]. exists l. rewrite Hl. cbn [logged log].
      rewrite <- app_assoc. reflexivity.
    + split; [exact Hc|]. eexists. cbn [logged log]. rewrite Hl.
      cbn [logged log]. rewrite <- !app_assoc. reflexivity.
  - rewrite (handle_request_unknown _ _ Hsel). cbn [snd logged log clock].
    split; [reflexivity|]. exists []. reflexivity.
Qed.

(** ** Tool names that are not strings *)

(** X3: a [tools/call] whose ["name"] is a non-empty list or dict fails in
    the registry lookup, which cannot hash it; the dispatcher answers with
    an [INTERNAL_ERROR] envelope naming the unhashable type, and logs the
    failure at level ERROR. *)
Theorem unhashable_tool_name_internal_error
    (builtin_repr : json -> string) (request : JsonRpcRequest)
    (d : list (string * json)) (name : json) (st : state) :
  method request = "tools/call" ->
  params request = JDict d ->
  dict_get "name" d = Some name ->
  unhashable_key name = true ->
  let text := "unhashable type: '" +:+ type_name name +:+ "'" in
  handle_request builtin_repr request st =
  (Return (create_error_response "INTERNAL_ERROR"
             ("Internal error: " +:+ text) (id request) JNone),
   logged ERROR ("Error handling MCP request tools/call: " +:+ text)
     (logged INFO "Handling 'tools/call' method"
        (logged INFO "Handling MCP request: tools/call" st))).
Proof.
  intros Hm Hp Hname Hkey. cbv zeta.
  rewrite (handle_request_known _ _ _ (method_handler_tools_call _ _ Hm)).
  rewrite Hp, Hm, handle_tools_call_dict by (eapply dict_get_nonempty; eauto).
  cbv zeta. unfold dict_get_default. rewrite Hname.
  destruct name as [| | | | |l|l]; try discriminate Hkey;
    cbn [unhashable_key] in Hkey; rewrite Hkey; reflexivity.
Qed.

Lemma unhashable_tool_name_internal_error_witness :
  handle_request repr_stub
    (mk_request "2.0" "tools/call" (JDict [("name", JList [JStr "echo"])])
       (JInt 8))
    (module_init _EPOCH) =
  (Return (create_error_response "INTERNAL_ERROR"
             "Internal error: unhashable type: 'list'" (JInt 8) JNone),
   logged ERROR
     "Error handling MCP request tools/call: unhashable type: 'list'"
     (logged INFO "Handling 'tools/call' method"
        (logged INFO "Handling MCP request: tools/call" (module_init _EPOCH)))).
Proof.
  apply (unhashable_tool_name_internal_error repr_stub
           (mk_request "2.0" "tools/call"
              (JDict [("name", JList [JStr "echo"])]) (JInt 8))
           [("name", JList [JStr "echo"])] (JList [JStr "echo"]));
    reflexivity.
Defined.

(** X4: a [tools/call] whose ["name"] is a truthy number or [true] gets
    the answer "Unknown tool: " followed by the printed value, whatever
    the registry holds: a value that is not a string never finds a
    handler. *)
Theorem scalar_tool_name_unknown
    (builtin_repr : json -> string) (request : JsonRpcRequest)
    (d : list (string * json)) (name : json) (st : state) :
  method request = "tools/call" ->
  params request = JDict d ->
  dict_get "name" d = Some name ->
  scalar_key name = true ->
  handle_request builtin_repr request st =
  (Return (create_success_response
             (JDict [("error",
                      JStr ("Unknown tool: " +:+ format_value builtin_repr name))])
             (id request)),
   logged INFO "Handling 'tools/call' method"
     (logged INFO "Handling MCP request: tools/call" st)).
Proof.
  intros Hm Hp Hname Hkey.
  rewrite (handle_request_known _ _ _ (method_handler_tools_call _ _ Hm)).
  rewrite Hp, Hm, handle_tools_call_dict by (eapply dict_get_nonempty; eauto).
  cbv zeta. unfold dict_get_default. rewrite Hname.
  destruct name as [|b|n|f| | |]; try discriminate Hkey;
    cbn [scalar_key] in Hkey; rewrite Hkey; reflexivity.
Qed.

Lemma scalar_tool_name_unknown_witness :
  handle_request repr_stub
    (mk_request "2.0" "tools/call" (JDict [("name", JInt 42)]) (JStr "a"))
    (module_init _EPOCH) =
  (Return (create_success_response
             (JDict [("error", JStr "Unknown tool: 42")]) (JStr "a")),
   logged INFO "Handling 'tools/call' method"
     (logged INFO "Handling MCP request: tools/call" (module_init _EPOCH))).
Proof.
  apply (scalar_tool_name_unknown repr_stub
           (mk_request "2.0" "tools/call" (JDict [("name", JInt 42)]) (JStr "a"))
           [("name", JInt 42)] (JInt 42));
    reflexivity.
Defined.

(** ** What the echo tool accepts *)

(** X5: when the echo tool is called with ["arguments"] present but not
    an object (a string, a number, a list, [null], ...), reading the
    message fails and the dispatcher answers with an [INTERNAL_ERROR]
    envelope "'<type>' object has no attribute 'get'". *)
Theorem echo_non_dict_arguments_internal_error
    (builtin_repr : json -> string) (request : JsonRpcRequest)
    (d : list (string * json)) (arguments : json) (st : state) :
  method request = "tools/call" ->
  params request = JDict d ->
  dict_get "name" d = Some (JStr "echo") ->
  TOOL_HANDLERS st !! "echo" = Some fn_tool_echo ->
  dict_get "arguments" d = Some arguments ->
  is_dict arguments = false ->
  let text := "'" +:+ type_name arguments +:+ "' object has no attribute 'get'" in
  handle_request builtin_repr request st =
  (Return (create_error_response "INTERNAL_ERROR"
             ("Internal error: " +:+ text) (id request) JNone),
   logged ERROR ("Error handling MCP request tools/call: " +:+ text)
     (logged INFO "Handling 'tools/call' method"
        (logged INFO "Handling MCP request: tools/call" st))).
Proof.
  intros Hm Hp Hname Hreg Hargs Hnd. cbv zeta.
  rewrite (handle_request_known _ _ _ (method_handler_tools_call _ _ Hm)).
  rewrite Hp, Hm, handle_tools_call_dict by (eapply dict_get_nonempty; eauto).
  cbv zeta. unfold dict_get_default. rewrite Hname, Hargs.
  cbn [truthy String.eqb Ascii.eqb Bool.eqb negb registry_get logged
       TOOL_HANDLERS].
  rewrite Hreg. cbn [call]. unfold tool_echo.
  destruct arguments; try discriminate Hnd; reflexivity.
Qed.

Lemma echo_non_dict_arguments_internal_error_witness :
  handle_request repr_stub
    (mk_request "2.0" "tools/call"
       (JDict [("name", JStr "echo"); ("arguments", JNone)]) (JInt 2))
    (module_init _EPOCH) =
  (Return (create_error_response "INTERNAL_ERROR"
             "Internal error: 'NoneType' object has no attribute 'get'"
             (JInt 2) JNone),
   logged ERROR
     "Error handling MCP request tools/call: 'NoneType' object has no attribute 'get'"
     (logged INFO "Handling 'tools/call' method"
        (logged INFO "Handling MCP request: tools/call" (module_init _EPOCH)))).
Proof.
  apply (echo_non_dict_arguments_internal_error repr_stub
           (mk_request "2.0" "tools/call"
              (JDict [("name", JStr "echo"); ("arguments", JNone)]) (JInt 2))
           [("name", JStr "echo"); ("arguments", JNone)] JNone).
  - reflexivity.
  - reflexivity.
  - reflexivity.
  - apply lookup_insert_eq.
  - reflexivity.
  - reflexivity.
Defined.

(** X6: the echo tool does not check its declared schema: whatever value
    the arguments hold under ["message"] (a number, a list, [null], an
    object) comes back unchanged as the ["text"] of the content block. *)
Theorem echo_returns_any_value
    (builtin_repr : json -> string) (request : JsonRpcRequest)
    (d arguments : list (string * json)) (v : json) (st : state) :
  method request = "tools/call" ->
  params request = JDict d ->
  dict_get "name" d = Some (JStr "echo") ->
  TOOL_HANDLERS st !! "echo" = Some fn_tool_echo ->
  dict_get "arguments" d = Some (JDict arguments) ->
  dict_get "message" arguments = Some v ->
  handle_request builtin_repr request st =
  (Return (create_success_response
             (JDict [("content", JList [JDict [("type", JStr "text");
                                               ("text", v)]])])
             (id request)),
   logged INFO "Handling 'tools/call' method"
     (logged INFO "Handling MCP request: tools/call" st)).
Proof.
  intros Hm Hp Hname Hreg Hargs Hmsg.
  rewrite (handle_request_known _ _ _ (method_handler_tools_call _ _ Hm)).
  rewrite Hp, Hm, handle_tools_call_dict by (eapply dict_get_nonempty; eauto).
  cbv zeta. unfold dict_get_default. rewrite Hname, Hargs.
  cbn [truthy String.eqb Ascii.eqb Bool.eqb negb registry_get logged
       TOOL_HANDLERS].
  rewrite Hreg. cbn [call]. unfold tool_echo, py_get, dict_get_default.
  run_monad. rewrite Hmsg. reflexivity.
Qed.

Lemma echo_returns_any_value_witness :
  handle_request repr_stub
    (mk_request "2.0" "tools/call"
       (JDict [("name", JStr "echo");
               ("arguments", JDict [("message", JList [JInt 1; JNone])])])
       (JInt 2))
    (module_init _EPOCH) =
  (Return (create_success_response
             (JDict [("content", JList [JDict [("type", JStr "text");
                                               ("text", JList [JInt 1; JNone])]])])
             (JInt 2)),
   logged INFO "Handling 'tools/call' method"
     (logged INFO "Handling MCP request: tools/call" (module_init _EPOCH))).
Proof.
  apply (echo_returns_any_value repr_stub
           (mk_request "2.0" "tools/call"
              (JDict [("name", JStr "echo");
                      ("arguments", JDict [("message", JList [JInt 1; JNone])])])
              (JInt 2))
           [("name", JStr "echo");
            ("arguments", JDict [("message", JList [JInt 1; JNone])])]
           [("message", JList [JInt 1; JNone])]).
  - reflexivity.
  - reflexivity.
  - reflexivity.
  - apply lookup_insert_eq.
  - reflexivity.
  - reflexivity.
Defined.

(** ** Registering tools *)

Lemma handle_tools_list_run (p : json) (st : state) :
  exists descriptor,
    handle_tools_list p st =
      (Return (JDict [("tools", JList [JDict descriptor])]), st)
    /\ dict_get "name" descriptor = Some (JStr "echo").
Proof. eexists. split; reflexivity. Qed.

(** X7: a tool registered with [register_tool] under a new name can be
    called through [tools/call] at once, but [tools/list] does not show
    it: the list is fixed and still holds the one descriptor ["echo"]. *)
Theorem registered_tool_callable_but_unlisted
    (builtin_repr : json -> string) (name : string) (st : state)
    (call_request list_request : JsonRpcRequest)
    (d arguments : list (string * json)) (v : json) :
  name <> "" ->
  method call_request = "tools/call" ->
  params call_request = JDict d ->
  dict_get "name" d = Some (JStr name) ->
  dict_get "arguments" d = Some (JDict arguments) ->
  dict_get "message" arguments = Some v ->
  method list_request = "tools/list" ->
  let st1 := snd (register_tool name fn_tool_echo st) in
  fst (handle_request builtin_repr call_request st1)
    = Return (create_success_response
                (JDict [("content", JList [JDict [("type", JStr "text");
                                                  ("text", v)]])])
                (id call_request))
  /\ exists descriptor,
       fst (handle_request builtin_repr list_request st1)
         = Return (create_success_response
                     (JDict [("tools", JList [JDict descriptor])])
                     (id list_request))
       /\ dict_get "name" descriptor = Some (JStr "echo").
Proof.
  intros Hne Hm Hp Hname Hargs Hmsg Hl. cbv zeta. split.
  - rewrite (handle_request_known _ _ _ (method_handler_tools_call _ _ Hm)).
    rewrite Hp, Hm, handle_tools_call_dict by (eapply dict_get_nonempty; eauto).
    cbv zeta. unfold dict_get_default. rewrite Hname, Hargs.
    apply String.eqb_neq in Hne.
    cbn [truthy registry_get logged TOOL_HANDLERS register_tool snd].
    rewrite Hne. cbn [negb]. rewrite lookup_insert_eq. cbn [call].
    unfold tool_echo, py_get, dict_get_default. run_monad. rewrite Hmsg.
    reflexivity.
  - rewrite (handle_request_known builtin_repr list_request handle_tools_list)
      by (rewrite Hl; reflexivity).
    destruct (handle_tools_list_run (params list_request)
                (logged INFO ("Handling MCP request: " +:+ method list_request)
                   (snd (register_tool name fn_tool_echo st))))
      as (descriptor & Hrun & Hd).
    rewrite Hrun. exists descriptor. split; [reflexivity | exact Hd].
Qed.

Lemma registered_tool_callable_but_unlisted_witness :
  fst (handle_request repr_stub
         (mk_request "2.0" "tools/call"
            (JDict [("name", JStr "say");
                    ("arguments", JDict [("message", JStr "hi")])]) (JInt 1))
         (snd (register_tool "say" fn_tool_echo (module_init _EPOCH))))
    = Return (create_success_response
                (JDict [("content", JList [JDict [("type", JStr "text");
                                                  ("text", JStr "hi")]])])
                (JInt 1))
  /\ exists descriptor,
       fst (handle_request repr_stub
              (mk_request "2.0" "tools/list" JNone (JInt 2))
              (snd (register_tool "say" fn_tool_echo (module_init _EPOCH))))
         = Return (create_success_response
                     (JDict [("tools", JList [JDict descriptor])]) (JInt 2))
       /\ dict_get "name" descriptor = Some (JStr "echo").
Proof.
  apply (registered_tool_callable_but_unlisted repr_stub "say"
           (module_init _EPOCH)
           (mk_request "2.0" "tools/call"
              (JDict [("name", JStr "say");
                      ("arguments", JDict [("message", JStr "hi")])]) (JInt 1))
           (mk_request "2.0" "tools/list" JNone (JInt 2))
           [("name", JStr "say"); ("arguments", JDict [("message", JStr "hi")])]
           [("message", JStr "hi")] (JStr "hi"));
    try reflexivity.
  discriminate.
Defined.

(** What a registered function returns does not depend on the state. *)
Lemma call_state_independent (f : callable) (arguments : json) (st1 st2 : state) :
  fst (call f arguments st1) = fst (call f arguments st2).
Proof. destruct f. unfold call, tool_echo. destruct arguments; reflexivity. Qed.

Lemma handle_time_state_independent (p : json) (st1 st2 : state) :
  clock st1 = clock st2 ->
  fst (handle_time p st1) = fst (handle_time p st2).
Proof.
  intros Hc. unfold handle_time, py_int. run_monad. rewrite Hc.
  destruct (float_value (timestamp (clock st2))); [reflexivity|].
  destruct (timestamp (clock st2)); reflexivity.
Qed.

(** X8: registering a tool under one name changes no answer to a request
    that does not call that name: every other method, and [tools/call]
    with any other name or with parameters that are turned down, is
    answered as before the registration. *)
Theorem register_tool_other_requests
    (builtin_repr : json -> string) (name : string) (f : callable)
    (request : JsonRpcRequest) (st : state) :
  (method request = "tools/call" ->
   json_field "name" (params request) <> Some (JStr name)) ->
  fst (handle_request builtin_repr request (snd (register_tool name f st)))
  = fst (handle_request builtin_repr request st).
Proof.
  intros Hother.
  destruct (method_handler builtin_repr (method request)) as [h|] eqn:Hsel.
  - rewrite !(handle_request_known _ _ _ Hsel).
    assert (Hh : fst (h (params request)
                        (logged INFO ("Handling MCP request: " +:+ method request)
                           (snd (register_tool name f st))))
                 = fst (h (params request)
                          (logged INFO ("Handling MCP request: " +:+ method request)
                             st))).
    { destruct (method_handler_cases _ _ _ Hsel)
        as [[_ ->] | [[_ ->] | [[_ ->] | [[_ ->] | [Hm ->]]]]];
        try reflexivity.
      - apply handle_time_state_independent. reflexivity.
      - specialize (Hother Hm).
        destruct (params request) as [| | | | | |d] eqn:Hp;
          try (rewrite !handle_tools_call_bad_params by (right; reflexivity);
               reflexivity).
        destruct d as [|item d].
        { rewrite !handle_tools_call_bad_params by (left; reflexivity).
          reflexivity. }
        rewrite !handle_tools_call_dict by discriminate. cbv zeta.
        cbn [json_field] in Hother. unfold dict_get_default in *.
        destruct (dict_get "name" (item :: d)) as [v|]; [|reflexivity].
        destruct (truthy v) eqn:Hv; [|reflexivity].
        destruct v as [| | | |s| |]; try reflexivity.
        cbn [registry_get logged TOOL_HANDLERS register_tool snd].
        rewrite lookup_insert_ne by congruence.
        destruct (TOOL_HANDLERS st !! s) as [g|]; [|reflexivity].
        apply call_state_independent. }
    destruct (h (params request) (logged _ _ (snd _))) as [[r1|e1] s1];
      destruct (h (params request) (logged _ _ st)) as [[r2|e2] s2];
      cbn [fst] in *; congruence.
  - rewrite !(handle_request_unknown _ _ Hsel). reflexivity.
Qed.

Lemma register_tool_other_requests_witness :
  fst (handle_request repr_stub
         (mk_request "2.0" "tools/call" (JDict [("name", JStr "other")]) (JInt 1))
         (snd (register_tool "say" fn_tool_echo (module_init _EPOCH))))
  = fst (handle_request repr_stub
           (mk_request "2.0" "tools/call" (JDict [("name", JStr "other")]) (JInt 1))
           (module_init _EPOCH)).
Proof.
  apply (register_tool_other_requests repr_stub "say" fn_tool_echo
           (mk_request "2.0" "tools/call" (JDict [("name", JStr "other")])
              (JInt 1))
           (module_init _EPOCH)).
  intros _. simpl. discriminate.
Defined.

(** ** Parameters of the other methods *)

(** X9: only [tools/call] reads the parameters.  For every other method,
    known or not, replacing the parameters by anything changes neither
    the response nor the state. *)
Theorem params_ignored_outside_tools_call
    (builtin_repr : json -> string) (request : JsonRpcRequest) (p : json)
    (st : state) :
  method request <> "tools/call" ->
  handle_request builtin_repr (with_params request p) st
  = handle_request builtin_repr request st.
Proof.
  intros Hm.
  destruct (method_handler builtin_repr (method request)) as [h|] eqn:Hsel.
  - rewrite (handle_request_known builtin_repr (with_params request p) h)
      by exact Hsel.
    rewrite (handle_request_known _ _ _ Hsel).
    destruct (method_handler_cases _ _ _ Hsel)
      as [[_ ->] | [[_ ->] | [[_ ->] | [[_ ->] | [Hc _]]]]];
      try reflexivity.
    contradiction.
  - rewrite (handle_request_unknown builtin_repr (with_params request p))
      by exact Hsel.
    rewrite (handle_request_unknown _ _ Hsel). reflexivity.
Qed.

Lemma params_ignored_outside_tools_call_witness :
  handle_request repr_stub
    (with_params (mk_request "2.0" "time" JNone (JInt 1))
       (JList [JStr "x"; JInt 3]))
    (module_init _EPOCH)
  = handle_request repr_stub (mk_request "2.0" "time" JNone (JInt 1))
      (module_init _EPOCH).
Proof.
  apply (params_ignored_outside_tools_call repr_stub
           (mk_request "2.0" "time" JNone (JInt 1))).
  simpl. discriminate.
Defined.

(** ** The sign of the integer timestamp *)

Lemma _days_before_year_before_epoch (y : Z) :
  1 <= y <= 1968 -> _days_before_year y <= 718431.
Proof.
  intros Hy. unfold _days_before_year. cbv zeta.
  Z.to_euclidean_division_equations. lia.
Qed.

Lemma microseconds_since_epoch_neg (t : datetime) :
  valid_datetime t -> year t < 1970 ->
  microseconds_since_epoch t < 0.
Proof.
  intros (Hy & Hm & Hd & Hh & Hmin & Hs & Hus) Hbefore.
  unfold microseconds_since_epoch. rewrite toordinal_EPOCH.
  assert (Hord : toordinal t <= 719162).
  { unfold toordinal, _ymd2ord.
    destruct (Z.eq_dec (year t) 1969) as [E | E].
    - rewrite E. unfold _days_before_month.
      pose proof (_DAYS_BEFORE_MONTH_bound (month t) Hm).
      change (_is_leap 1969) with false. rewrite andb_false_r.
      change (_days_before_year 1969) with 718797. lia.
    - pose proof (_days_before_year_before_epoch (year t) ltac:(lia)).
      pose proof (_days_before_month_bound (year t) (month t) Hm). lia. }
  lia.
Qed.

Lemma Qtrunc_sign (q : Q) :
  (0 <= Qnum q -> 0 <= Qtrunc q) /\ (Qnum q <= 0 -> Qtrunc q <= 0).
Proof.
  unfold Qtrunc. split; intros H.
  - apply Z.quot_pos; lia.
  - rewrite <- (Z.opp_involutive (Qnum q)).
    rewrite Z.quot_opp_l by lia.
    assert (0 <= - Qnum q ÷ Z.pos (Qden q)) by (apply Z.quot_pos; lia). lia.
Qed.

(** X10: at a valid clock reading the [time] method succeeds, and the
    sign of [unix_timestamp] follows the side of the epoch the reading is
    on: not negative from 1970 on, not positive before. *)
Theorem unix_timestamp_sign
    (builtin_repr : json -> string) (request : JsonRpcRequest) (st : state) :
  method request = "time" ->
  valid_datetime (clock st) ->
  exists result server_time n,
    fst (handle_request builtin_repr request st)
      = Return (create_success_response result (id request))
    /\ json_field "server_time" result = Some server_time
    /\ json_field "unix_timestamp" server_time = Some (JInt n)
    /\ (1970 <= year (clock st) -> 0 <= n)
    /\ (year (clock st) < 1970 -> n <= 0).
Proof.
  intros Hm Hvalid.
  destruct (handle_time_valid (params request)
              (logged INFO ("Handling MCP request: " +:+ method request) st)
              Hvalid) as (q & _ & Hpos & Hneg & Hrun).
  cbn [clock logged] in Hpos, Hneg.
  eexists. eexists. exists (Qtrunc q). split.
  { rewrite (handle_request_known builtin_repr request handle_time)
      by (rewrite Hm; reflexivity).
    rewrite Hrun. reflexivity. }
  split; [reflexivity|]. split; [reflexivity|].
  destruct (Qtrunc_sign q) as [Hp Hn]. split; intros Hy.
  - apply Hp, Hpos, Z.ltb_ge.
    apply microseconds_since_epoch_nonneg; assumption.
  - apply Hn, Hneg, Z.ltb_lt.
    apply microseconds_since_epoch_neg; assumption.
Qed.

Lemma unix_timestamp_sign_witness :
  exists result server_time n,
    fst (handle_request repr_stub (mk_request "2.0" "time" JNone (JInt 1))
           (module_init (mk_datetime 1969 7 20 20 17 40 0)))
      = Return (create_success_response result (JInt 1))
    /\ json_field "server_time" result = Some server_time
    /\ json_field "unix_timestamp" server_time = Some (JInt n)
    /\ (1970 <= 1969 -> 0 <= n)
    /\ (1969 < 1970 -> n <= 0).
Proof.
  apply (unix_timestamp_sign repr_stub (mk_request "2.0" "time" JNone (JInt 1))
           (module_init (mk_datetime 1969 7 20 20 17 40 0))).
  - reflexivity.
  - unfold valid_datetime. simpl. lia.
Defined.

(** * API-key authentication *)

(** X11: [verify_mcp_api_key] returns [True] exactly when the header is
    present, not empty, and equal to a configured key that is a string;
    it never returns [False].  In particular no header is accepted when
    the configured key is empty or is not a string. *)
Theorem verify_mcp_api_key_accepts_iff (MCP_API_KEY : json) (header : option string) :
  (Auth.verify_mcp_api_key MCP_API_KEY header = inr true
   <-> exists key, header = Some key /\ key <> "" /\ MCP_API_KEY = JStr key)
  /\ Auth.verify_mcp_api_key MCP_API_KEY header <> inr false
  /\ (MCP_API_KEY = JStr "" \/ (forall key, MCP_API_KEY <> JStr key) ->
      Auth.verify_mcp_api_key MCP_API_KEY header <> inr true).
Proof.
  assert (Hiff : Auth.verify_mcp_api_key MCP_API_KEY header = inr true
                 <-> exists key, header = Some key /\ key <> ""
                                 /\ MCP_API_KEY = JStr key).
  { unfold Auth.verify_mcp_api_key, Auth.verify_api_key, Auth.str_eq. split.
    - destruct header as [[|a key]|]; try discriminate.
      destruct MCP_API_KEY as [| | | |t| |]; try discriminate.
      destruct (String.eqb_spec (String a key) t) as [<-|]; [|discriminate].
      intros _. exists (String a key). repeat split. discriminate.
    - intros (key & -> & Hne & ->). destruct key as [|a key]; [congruence|].
      now rewrite String.eqb_refl. }
  split; [exact Hiff|]. split.
  - unfold Auth.verify_mcp_api_key. destruct header as [[|a key]|]; try discriminate.
    destruct (negb _); discriminate.
  - intros Hcfg Hacc. apply Hiff in Hacc. destruct Hacc as (key & _ & Hne & Hk).
    destruct Hcfg as [H | H]; [congruence | exact (H key Hk)].
Qed.

(** X12: every refusal of [verify_mcp_api_key] is an [HTTPException] with
    status 401 and the header [WWW-Authenticate: Bearer]; its detail tells
    a missing key (no header, or an empty one) from a wrong one. *)
Theorem verify_mcp_api_key_refusals
    (MCP_API_KEY : json) (header : option string) (e : Auth.HTTPException) :
  Auth.verify_mcp_api_key MCP_API_KEY header = inl e ->
  Auth.status_code e = 401
  /\ Auth.headers e = [("WWW-Authenticate", "Bearer")]
  /\ (((header = None \/ header = Some "")
       /\ Auth.detail e = "Missing API key. Please provide MCP-API-Key header.")
      \/ (exists key, header = Some key /\ key <> "" /\ MCP_API_KEY <> JStr key
                      /\ Auth.detail e = "Invalid API key")).
Proof.
  unfold Auth.verify_mcp_api_key, Auth.verify_api_key, Auth.str_eq.
  destruct header as [[|a key]|].
  - intros [= <-]. repeat split. left. split; [right|]; reflexivity.
  - destruct MCP_API_KEY as [| | | |t| |]; cbn [negb].
    5: destruct (String.eqb_spec (String a key) t) as [<-|Hne]; cbn [negb];
       [discriminate|].
    all: intros [= <-]; repeat split; right; exists (String a key);
      repeat split; congruence.
  - intros [= <-]. repeat split. left. split; [left|]; reflexivity.
Qed.

Lemma verify_mcp_api_key_refusals_witness :
  Auth.status_code (Auth.mk_http_exception 401 "Invalid API key"
                      [("WWW-Authenticate", "Bearer")]) = 401
  /\ Auth.headers (Auth.mk_http_exception 401 "Invalid API key"
                     [("WWW-Authenticate", "Bearer")])
     = [("WWW-Authenticate", "Bearer")]
  /\ (((Some "Secret" = None \/ Some "Secret" = Some "")
       /\ Auth.detail (Auth.mk_http_exception 401 "Invalid API key"
                         [("WWW-Authenticate", "Bearer")])
          = "Missing API key. Please provide MCP-API-Key header.")
      \/ (exists key, Some "Secret" = Some key /\ key <> ""
                      /\ JStr "secret" <> JStr key
                      /\ Auth.detail (Auth.mk_http_exception 401 "Invalid API key"
                                        [("WWW-Authenticate", "Bearer")])
                         = "Invalid API key")).
Proof.
  apply (verify_mcp_api_key_refusals (JStr "secret") (Some "Secret")).
  reflexivity.
Defined.

Lemma verify_mcp_api_key_accepts_iff_witness :
  (Auth.verify_mcp_api_key (JStr "secret") (Some "secret") = inr true
   <-> exists key, Some "secret" = Some key /\ key <> ""
                   /\ JStr "secret" = JStr key)
  /\ Auth.verify_mcp_api_key (JStr "secret") (Some "secret") <> inr false
  /\ (JStr "secret" = JStr "" \/ (forall key, JStr "secret" <> JStr key) ->
      Auth.verify_mcp_api_key (JStr "secret") (Some "secret") <> inr true).
Proof.
  exact (verify_mcp_api_key_accepts_iff (JStr "secret") (Some "secret")).
Defined.

(** * The database layer and start-up *)

Section DbProperties.

Import Db.

Variable DB_PATH : string.
Variable sha256_hexdigest : string -> string.

Ltac db_unfold :=
  unfold init_database, mcp_db_init, get_db_connection, try_finally,
    Db.try_except, try_except_sqlite3, bind, ret, throw, sqlite3_connect,
    do_call, Db.logger_info, Db.logger_error;
  cbn [calls db_log].

(** The three outcomes of [get_db_connection]. *)
Lemma get_db_connection_cases (env : environment) (st : db_state) :
  let conn := opened (calls st) in
  let pragma := execute conn "PRAGMA journal_mode=WAL" [] in
  let logged_error e :=
    match e with
    | sqlite3_Error msg =>
        (db_log st ++ [(ERROR, "Database connection error: " +:+ msg)])%list
    | OtherException _ => db_log st
    end in
  match env (calls st) (connect DB_PATH) with
  | Some e =>
      get_db_connection DB_PATH env st
      = (Raises e, mk_db_state ((connect DB_PATH, Some e) :: calls st)
                     (logged_error e))
  | None =>
      match env ((connect DB_PATH, None) :: calls st) pragma with
      | Some e =>
          get_db_connection DB_PATH env st
          = (Raises e,
             mk_db_state ((pragma, Some e) :: (connect DB_PATH, None) :: calls st)
               (logged_error e))
      | None =>
          get_db_connection DB_PATH env st
          = (Returns conn,
             mk_db_state ((pragma, None) :: (connect DB_PATH, None) :: calls st)
               (db_log st))
      end
  end.
Proof.
  cbv zeta. db_unfold.
  destruct (env (calls st) (connect DB_PATH)) as [[msg|msg]|]; try reflexivity.
  cbn [calls db_log].
  destruct (env _ (execute _ _ _)) as [[msg|msg]|]; reflexivity.
Qed.

Lemma get_db_connection_returns (env : environment) (st st1 : db_state)
    (conn : nat) :
  get_db_connection DB_PATH env st = (Returns conn, st1) ->
  conn = opened (calls st)
  /\ st1 = mk_db_state
             ((execute conn "PRAGMA journal_mode=WAL" [], None)
              :: (connect DB_PATH, None) :: calls st)
             (db_log st).
Proof.
  intros H. pose proof (get_db_connection_cases env st) as Hc. cbv zeta in Hc.
  destruct (env (calls st) (connect DB_PATH)); [congruence|].
  destruct (env _ (execute _ _ _)); [congruence|].
  rewrite Hc in H. injection H as <- <-. split; reflexivity.
Qed.

(** With a connection in hand the initialisers run their [try] block. *)
Lemma init_database_connected (env : environment) (st st1 : db_state)
    (conn : nat) :
  get_db_connection DB_PATH env st = (Returns conn, st1) ->
  init_database DB_PATH sha256_hexdigest env st =
  try_finally
    (Db.try_except
       (bind (do_call (execute conn SQL_CREATE_USERS [])) (fun _ =>
        bind (do_call (execute conn SQL_INSERT_ADMIN
                         ["admin"; hash_password sha256_hexdigest "admin123"]))
          (fun _ =>
        bind (do_call (commit conn)) (fun _ =>
        Db.logger_info "Database initialized successfully"))))
       (fun e =>
          bind (Db.logger_error ("Error initializing database: "
                                 +:+ db_exn_str e))
            (fun _ => do_call (rollback conn))))
    (do_call (close conn)) env st1.
Proof. intros H. unfold init_database, bind at 1. rewrite H. reflexivity. Qed.

Lemma mcp_db_init_connected (env : environment) (st st1 : db_state)
    (conn : nat) :
  get_db_connection DB_PATH env st = (Returns conn, st1) ->
  mcp_db_init DB_PATH env st =
  try_finally
    (Db.try_except
       (bind (do_call (execute conn SQL_CREATE_MCP_QUERIES [])) (fun _ =>
        bind (do_call (execute conn SQL_INDEX_TOOL_NAME [])) (fun _ =>
        bind (do_call (execute conn SQL_INDEX_CREATED_DATE [])) (fun _ =>
        bind (do_call (commit conn)) (fun _ =>
        Db.logger_info "MCP database tables initialized successfully")))))
       (fun e =>
          bind (Db.logger_error ("Error initializing MCP database: "
                                 +:+ db_exn_str e)) (fun _ =>
          bind (do_call (rollback conn)) (fun _ =>
          throw e))))
    (do_call (close conn)) env st1.
Proof. intros H. unfold mcp_db_init, bind at 1. rewrite H. reflexivity. Qed.

(** Running the body of an initialiser on every answer of the
    environment. *)
Ltac db_paths env :=
  db_unfold;
  repeat match goal with
         | |- context [env ?h ?c] =>
             destruct (env h c) as [?|] eqn:?; cbn [calls db_log]
         end.

(** X13: when the connection opens but the [PRAGMA] statement raises,
    [get_db_connection] raises that exception and nothing closes the
    connection: not [get_db_connection] itself, and not [init_database]
    or [mcp_db_init], which call it before their [try] block. *)
Theorem pragma_failure_leaves_connection_open
    (env : environment) (st : db_state) (e : db_exn) :
  env (calls st) (connect DB_PATH) = None ->
  env ((connect DB_PATH, None) :: calls st)
    (execute (opened (calls st)) "PRAGMA journal_mode=WAL" []) = Some e ->
  let leaked (r : db_outcome unit * db_state) :=
    fst r = Raises e
    /\ opened (calls (snd r)) = S (opened (calls st))
    /\ closed (calls (snd r)) = closed (calls st) in
  fst (get_db_connection DB_PATH env st) = Raises e
  /\ leaked (init_database DB_PATH sha256_hexdigest env st)
  /\ leaked (mcp_db_init DB_PATH env st).
Proof.
  intros Hconnect Hpragma. cbv zeta.
  pose proof (get_db_connection_cases env st) as Hc. cbv zeta in Hc.
  rewrite Hconnect, Hpragma in Hc.
  split; [rewrite Hc; reflexivity|].
  unfold init_database, mcp_db_init, bind. rewrite Hc.
  cbn [fst snd calls opened closed]. repeat split; reflexivity.
Qed.

(** X14: once [get_db_connection] has returned a connection,
    [init_database] and [mcp_db_init] close it on every path, whatever
    raises in between: the last call they make is [close] on that
    connection, it is their only [close], and they open nothing else. *)
Theorem initialisers_close_connection
    (env : environment) (st st1 : db_state) (conn : nat) :
  get_db_connection DB_PATH env st = (Returns conn, st1) ->
  let closes (r : db_outcome unit * db_state) :=
    exists o earlier,
      calls (snd r) = (close conn, o) :: earlier
      /\ closed earlier = closed (calls st)
      /\ opened (calls (snd r)) = S (opened (calls st)) in
  closes (init_database DB_PATH sha256_hexdigest env st)
  /\ closes (mcp_db_init DB_PATH env st).
Proof.
  intros Hconn. cbv zeta.
  rewrite (init_database_connected _ _ _ _ Hconn).
  rewrite (mcp_db_init_connected _ _ _ _ Hconn).
  destruct (get_db_connection_returns _ _ _ _ Hconn) as [_ ->]. clear Hconn.
  split; db_paths env;
    (do 2 eexists; split; [reflexivity|]; split; reflexivity).
Qed.

(** Closing the paths on which a call that never fails has failed. *)
Ltac db_absurd :=
  match goal with
  | Hnf : never_fails ?env ?c, H : ?env _ ?c = Some _ |- _ =>
      rewrite Hnf in H; discriminate H
  end.

(** X15: [init_database] swallows what goes wrong inside its [try]
    block.  With a connection in hand, and as long as rolling back and
    closing work, it returns normally whichever of its statements or its
    commit raises. *)
Theorem init_database_swallows_failures
    (env : environment) (st st1 : db_state) (conn : nat) :
  get_db_connection DB_PATH env st = (Returns conn, st1) ->
  never_fails env (rollback conn) ->
  never_fails env (close conn) ->
  fst (init_database DB_PATH sha256_hexdigest env st) = Returns tt.
Proof.
  intros Hconn Hrb Hcl.
  rewrite (init_database_connected _ _ _ _ Hconn).
  db_paths env; try db_absurd; reflexivity.
Qed.

(** X16: [mcp_db_init] does not swallow.  With a connection in hand, and
    as long as rolling back and closing work, it returns normally exactly
    when none of its calls raised; otherwise it raises the exception of
    the failed call, after a rollback. *)
Theorem mcp_db_init_reraises
    (env : environment) (st st1 : db_state) (conn : nat) :
  get_db_connection DB_PATH env st = (Returns conn, st1) ->
  never_fails env (rollback conn) ->
  never_fails env (close conn) ->
  exists new,
    calls (snd (mcp_db_init DB_PATH env st)) = (new ++ calls st1)%list
    /\ (fst (mcp_db_init DB_PATH env st) = Returns tt
        <-> some_failed new = false)
    /\ (forall e, fst (mcp_db_init DB_PATH env st) = Raises e ->
        rolled_back new = true /\ exists c, In (c, Some e) new).
Proof.
  intros Hconn Hrb Hcl.
  rewrite (mcp_db_init_connected _ _ _ _ Hconn).
  db_paths env; try db_absurd; cbn [snd fst calls];
    match goal with
    | |- exists new, ?l = (new ++ calls st1)%list /\ _ =>
        match l with
        | context C [calls st1] =>
            let new := context C [@nil (db_call * option db_exn)] in
            exists new
        end
    end;
    (split; [reflexivity|]); cbn [fst some_failed rolled_back existsb snd orb];
    (split; [split; intros; congruence|]);
    intros e' [= <-]; (split; [reflexivity|]); eexists; cbn [In]; eauto 10.
Qed.

(** X17: both initialisers keep the transaction discipline.  With a
    connection in hand, and as long as rolling back and closing work,
    [rollback] is called exactly when one of the calls raised, and never
    after a commit that went through. *)
Theorem initialisers_rollback_iff_failure
    (env : environment) (st st1 : db_state) (conn : nat) :
  get_db_connection DB_PATH env st = (Returns conn, st1) ->
  never_fails env (rollback conn) ->
  never_fails env (close conn) ->
  let disciplined (r : db_outcome unit * db_state) :=
    exists new,
      calls (snd r) = (new ++ calls st1)%list
      /\ rolled_back new = some_failed new
      /\ (committed new = true -> rolled_back new = false) in
  disciplined (init_database DB_PATH sha256_hexdigest env st)
  /\ disciplined (mcp_db_init DB_PATH env st).
Proof.
  intros Hconn Hrb Hcl. cbv zeta.
  rewrite (init_database_connected _ _ _ _ Hconn).
  rewrite (mcp_db_init_connected _ _ _ _ Hconn).
  split; db_paths env; try db_absurd; cbn [snd fst calls];
    match goal with
    | |- exists new, ?l = (new ++ calls st1)%list /\ _ =>
        match l with
        | context C [calls st1] =>
            let new := context C [@nil (db_call * option db_exn)] in
            exists new
        end
    end;
    (split; [reflexivity|]);
    cbn [some_failed rolled_back committed existsb fst snd orb];
    (split; [reflexivity | intros; congruence]).
Qed.

(** X18: a connection that cannot be set up is logged by
    [get_db_connection] only when the exception is an [sqlite3.Error];
    any other exception passes through without a record.  Either way the
    exception raised is the one the database call raised and no [close]
    is called. *)
Theorem connection_errors_logged_only_for_sqlite3
    (env : environment) (st st1 : db_state) (e : db_exn) :
  get_db_connection DB_PATH env st = (Raises e, st1) ->
  db_log st1 =
    (db_log st ++
     match e with
     | sqlite3_Error msg => [(ERROR, "Database connection error: " +:+ msg)]
     | OtherException _ => []
     end)%list
  /\ closed (calls st1) = closed (calls st)
  /\ exists c earlier, calls st1 = (c, Some e) :: earlier.
Proof.
  intros H. pose proof (get_db_connection_cases env st) as Hc. cbv zeta in Hc.
  destruct (env (calls st) (connect DB_PATH)) as [e1|].
  - rewrite Hc in H. injection H as <- <-. cbn [db_log calls closed].
    split; [destruct e1; [reflexivity | symmetry; apply app_nil_r]|].
    split; [reflexivity | eauto].
  - destruct (env _ (execute _ _ _)) as [e1|]; rewrite Hc in H;
      [|discriminate H].
    injection H as <- <-. cbn [db_log calls closed].
    split; [destruct e1; [reflexivity | symmetry; apply app_nil_r]|].
    split; [reflexivity | eauto].
Qed.

(** What is left of the start-up once [init_database] has run. *)
Lemma lifespan_startup_unfold (env : environment) (st : db_state) :
  lifespan_startup DB_PATH sha256_hexdigest env st =
  match init_database DB_PATH sha256_hexdigest env st with
  | (Returns _, st1) =>
      match mcp_db_init DB_PATH env st1 with
      | (Returns _, st2) =>
          (Returns tt,
           mk_db_state (calls st2)
             (db_log st2 ++ [(INFO, "Initialize database")]))
      | (Raises e, st2) =>
          (Returns tt,
           mk_db_state (calls st2)
             (db_log st2 ++ [(ERROR, "Failed to initialize application: "
                                     +:+ db_exn_str e)]))
      end
  | (Raises e, st1) =>
      (Returns tt,
       mk_db_state (calls st1)
         (db_log st1 ++ [(ERROR, "Failed to initialize application: "
                                 +:+ db_exn_str e)]))
  end.
Proof.
  unfold lifespan_startup, Db.try_except, bind at 1.
  destruct (init_database _ _ env st) as [[[]|e] st1]; [|reflexivity].
  unfold bind. destruct (mcp_db_init _ env st1) as [[[]|e] st2]; reflexivity.
Qed.

(** X19: the start-up of the application never raises, whatever the
    database does: it always returns, and the last record it logs is
    either "Initialize database" or "Failed to initialize application:
    ..." with the text of the exception.  When [init_database] raises,
    [mcp_db_init] is not run: no call is made after those of
    [init_database]. *)
Theorem lifespan_startup_never_raises (env : environment) (st : db_state) :
  exists st' final,
    lifespan_startup DB_PATH sha256_hexdigest env st = (Returns tt, st')
    /\ (exists records, db_log st' = (records ++ [final])%list)
    /\ (final = (INFO, "Initialize database")
        \/ exists e, final = (ERROR, "Failed to initialize application: "
                                     +:+ db_exn_str e))
    /\ (forall e st1,
          init_database DB_PATH sha256_hexdigest env st = (Raises e, st1) ->
          calls st' = calls st1).
Proof.
  rewrite lifespan_startup_unfold.
  destruct (init_database _ _ env st) as [[[]|e] st1].
  - destruct (mcp_db_init _ env st1) as [[[]|e] st2];
      do 2 eexists; (split; [reflexivity|]); cbn [db_log calls];
      (split; [eexists; reflexivity|]);
      (split; [|intros ? ? [=]]); [left | right; eexists]; reflexivity.
  - do 2 eexists. (split; [reflexivity|]). cbn [db_log calls].
    split; [eexists; reflexivity|].
    split; [right; eexists; reflexivity|]. intros ? ? [= <- <-]. reflexivity.
Qed.

(** X20: the start-up can report success although the users table was
    not set up.  On a database where exactly the statement creating the
    users table raises, [init_database] logs the error and swallows it,
    [mcp_db_init] goes through, and the log ends with "Initialize
    database"; the admin row is never inserted. *)
Theorem startup_reports_success_after_users_failure
    (env : environment) (st : db_state) (e : db_exn) :
  (forall h conn parameters,
     env h (execute conn SQL_CREATE_USERS parameters) = Some e) ->
  (forall h c,
     (forall conn parameters, c <> execute conn SQL_CREATE_USERS parameters) ->
     env h c = None) ->
  exists st' new,
    lifespan_startup DB_PATH sha256_hexdigest env st = (Returns tt, st')
    /\ db_log st' =
       (db_log st ++
        [(ERROR, "Error initializing database: " +:+ db_exn_str e);
         (INFO, "MCP database tables initialized successfully");
         (INFO, "Initialize database")])%list
    /\ calls st' = (new ++ calls st)%list
    /\ rolled_back new = true
    /\ forall conn parameters o,
         ~ In (execute conn SQL_INSERT_ADMIN parameters, o) new.
Proof.
  intros Hfail Hok.
  assert (Hc : forall h database, env h (connect database) = None).
  { intros. apply Hok. discriminate. }
  assert (Hx : forall h conn sql,
             sql <> SQL_CREATE_USERS -> env h (execute conn sql []) = None).
  { intros h conn sql Hne. apply Hok. congruence. }
  assert (Hm : forall h conn, env h (commit conn) = None).
  { intros. apply Hok. discriminate. }
  assert (Hr : forall h conn, env h (rollback conn) = None).
  { intros. apply Hok. discriminate. }
  assert (Hl : forall h conn, env h (close conn) = None).
  { intros. apply Hok. discriminate. }
  unfold lifespan_startup. db_unfold.
  repeat (first [ rewrite Hc | rewrite Hfail | rewrite Hm | rewrite Hr
                | rewrite Hl | rewrite Hx by (vm_compute; discriminate) ];
          cbn [calls db_log]).
  eexists. eexists
    [(close _, None); (commit _, None); (execute _ _ _, None);
     (execute _ _ _, None); (execute _ _ _, None); (execute _ _ _, None);
     (connect _, None);
     (close _, None); (rollback _, None); (execute _ _ _, Some e);
     (execute _ _ _, None); (connect _, None)].
  split; [reflexivity|]. cbn [db_log calls].
  split; [rewrite <- !app_assoc; reflexivity|].
  split; [reflexivity|]. split; [reflexivity|].
  intros conn parameters o Hin. cbn [In] in Hin.
  repeat (destruct Hin as [Hin | Hin]; [discriminate Hin || (injection Hin as _ Hsql _ _; vm_compute in Hsql; discriminate Hsql)|]).
  exact Hin.
Qed.

End DbProperties.

Lemma pragma_failure_leaves_connection_open_witness :
  fst (Db.get_db_connection "mcp.db"
         (Db.fails_on "PRAGMA journal_mode=WAL" (Db.sqlite3_Error "database is locked"))
         Db.fresh)
  = Db.Raises (Db.sqlite3_Error "database is locked").
Proof.
  apply (pragma_failure_leaves_connection_open "mcp.db" Db.digest_stub
           (Db.fails_on "PRAGMA journal_mode=WAL"
              (Db.sqlite3_Error "database is locked"))
           Db.fresh (Db.sqlite3_Error "database is locked"));
    reflexivity.
Defined.

Lemma initialisers_close_connection_witness :
  exists o earlier,
    Db.calls (snd (Db.init_database "mcp.db" Db.digest_stub
                     (Db.fails_on Db.SQL_INSERT_ADMIN
                        (Db.sqlite3_Error "disk I/O error"))
                     Db.fresh))
    = (Db.close 0, o) :: earlier
    /\ Db.closed earlier = 0%nat.
Proof.
  destruct (initialisers_close_connection "mcp.db" Db.digest_stub
              (Db.fails_on Db.SQL_INSERT_ADMIN (Db.sqlite3_Error "disk I/O error"))
              Db.fresh _ 0%nat eq_refl)
    as [(o & earlier & Hcalls & Hclosed & _) _].
  exists o, earlier. split; [exact Hcalls | exact Hclosed].
Defined.

Lemma init_database_swallows_failures_witness :
  fst (Db.init_database "mcp.db" Db.digest_stub
         (Db.fails_on Db.SQL_CREATE_USERS (Db.sqlite3_Error "disk I/O error"))
         Db.fresh)
  = Db.Returns tt.
Proof.
  eapply (init_database_swallows_failures "mcp.db" Db.digest_stub
            (Db.fails_on Db.SQL_CREATE_USERS (Db.sqlite3_Error "disk I/O error"))
            Db.fresh _ 0%nat).
  - reflexivity.
  - intros h. reflexivity.
  - intros h. reflexivity.
Defined.

Lemma mcp_db_init_reraises_witness :
  exists new,
    Db.calls (snd (Db.mcp_db_init "mcp.db"
                     (Db.fails_on Db.SQL_INDEX_TOOL_NAME
                        (Db.sqlite3_Error "disk I/O error"))
                     Db.fresh))
    = (new ++ [(Db.execute 0 "PRAGMA journal_mode=WAL" [], None);
               (Db.connect "mcp.db", None)])%list
    /\ (fst (Db.mcp_db_init "mcp.db"
               (Db.fails_on Db.SQL_INDEX_TOOL_NAME
                  (Db.sqlite3_Error "disk I/O error"))
               Db.fresh) = Db.Returns tt
        <-> Db.some_failed new = false).
Proof.
  destruct (mcp_db_init_reraises "mcp.db"
              (Db.fails_on Db.SQL_INDEX_TOOL_NAME (Db.sqlite3_Error "disk I/O error"))
              Db.fresh _ 0%nat eq_refl)
    as (new & Hcalls & Hiff & _).
  - intros h. reflexivity.
  - intros h. reflexivity.
  - exists new. split; [exact Hcalls | exact Hiff].
Defined.

Lemma initialisers_rollback_iff_failure_witness :
  exists new,
    Db.calls (snd (Db.init_database "mcp.db" Db.digest_stub Db.works Db.fresh))
    = (new ++ [(Db.execute 0 "PRAGMA journal_mode=WAL" [], None);
               (Db.connect "mcp.db", None)])%list
    /\ Db.rolled_back new = Db.some_failed new
    /\ (Db.committed new = true -> Db.rolled_back new = false).
Proof.
  destruct (initialisers_rollback_iff_failure "mcp.db" Db.digest_stub
              Db.works Db.fresh _ 0%nat eq_refl)
    as [Hinit _].
  - intros h. reflexivity.
  - intros h. reflexivity.
  - exact Hinit.
Defined.

Lemma connection_errors_logged_only_for_sqlite3_witness :
  Db.db_log (snd (Db.get_db_connection "mcp.db"
                    (Db.refuses_connection
                       (Db.sqlite3_Error "unable to open database file"))
                    Db.fresh))
  = [(ERROR, "Database connection error: unable to open database file")].
Proof.
  apply (connection_errors_logged_only_for_sqlite3 "mcp.db"
           (Db.refuses_connection
              (Db.sqlite3_Error "unable to open database file"))
           Db.fresh _ (Db.sqlite3_Error "unable to open database file")).
  reflexivity.
Defined.

Lemma startup_reports_success_after_users_failure_witness :
  exists st' new,
    Db.lifespan_startup "mcp.db" Db.digest_stub
      (Db.fails_on Db.SQL_CREATE_USERS (Db.sqlite3_Error "disk I/O error"))
      Db.fresh = (Db.Returns tt, st')
    /\ Db.db_log st' =
       [(ERROR, "Error initializing database: disk I/O error");
        (INFO, "MCP database tables initialized successfully");
        (INFO, "Initialize database")]
    /\ Db.calls st' = (new ++ [])%list
    /\ Db.rolled_back new = true
    /\ forall conn parameters o,
         ~ In (Db.execute conn Db.SQL_INSERT_ADMIN parameters, o) new.
Proof.
  apply (startup_reports_success_after_users_failure "mcp.db" Db.digest_stub
           (Db.fails_on Db.SQL_CREATE_USERS (Db.sqlite3_Error "disk I/O error"))
           Db.fresh (Db.sqlite3_Error "disk I/O error")).
  - intros h conn parameters. reflexivity.
  - intros h c Hc. destruct c as [database|conn sql parameters|conn|conn|conn];
      try reflexivity.
    unfold Db.fails_on.
    destruct (String.eqb_spec sql Db.SQL_CREATE_USERS) as [-> | Hne];
      [|reflexivity].
    exfalso. exact (Hc conn parameters eq_refl).
Defined.
